(** * BookBuddy: Open Library matching and curated seeding (src/main.py)

    Shallow embedding of [_ol_cover_url], [_ol_best_match] and
    [_ensure_seeded_curated], and of the code around them: [_time_ago],
    [_ol_description_for], [get_or_create_book_row], [_ol_search], the
    cover logic of [all_books_ui], and the view functions [add_book],
    [browse], [api_openlibrary], [api_search_books],
    [api_following_toggle], [api_followers_remove], [edit_profile],
    [qr_profile], [public_profile], [theme_settings], [language_settings]
    and [signup] (the parts that compute on their inputs).
    Python strings are modelled as byte strings
    ([String.string]); [str.strip] and [str.lower] act on the ASCII
    whitespace and letters.  JSON numbers are modelled as integers. *)

From Stdlib Require Import String Ascii List ZArith Lia Bool Permutation.
Import ListNotations.
Open Scope string_scope.
Open Scope Z_scope.

(** ** Python string primitives *)
Module Py.

(** [str.isspace] on the ASCII range: \t \n \v \f \r, \x1c-\x1f and space. *)
Definition is_space (c : ascii) : bool :=
  let n := nat_of_ascii c in
  ((9 <=? n) && (n <=? 13))%nat || ((28 <=? n) && (n <=? 32))%nat.

Fixpoint lstrip (s : string) : string :=
  match s with
  | EmptyString => EmptyString
  | String c r => if is_space c then lstrip r else s
  end.

Definition rstrip (s : string) : string :=
  string_of_list_ascii
    (rev (list_ascii_of_string (lstrip (string_of_list_ascii
      (rev (list_ascii_of_string s)))))).

(** [s.strip()] *)
Definition strip (s : string) : string := rstrip (lstrip s).

Definition lower_char (c : ascii) : ascii :=
  let n := nat_of_ascii c in
  if ((65 <=? n) && (n <=? 90))%nat then ascii_of_nat (n + 32) else c.

(** [s.lower()] *)
Fixpoint lower (s : string) : string :=
  match s with
  | EmptyString => EmptyString
  | String c r => String (lower_char c) (lower r)
  end.

(** [needle in hay] for strings *)
Fixpoint contains (needle hay : string) : bool :=
  match hay with
  | EmptyString => String.eqb needle EmptyString
  | String _ r => String.prefix needle hay || contains needle r
  end.

Definition is_empty (s : string) : bool := String.eqb s EmptyString.

(** [str(n)] for an integer *)
Definition digit (n : Z) : ascii := ascii_of_nat (48 + Z.to_nat n).

Fixpoint nat_digits (fuel : nat) (n : Z) (acc : string) : string :=
  match fuel with
  | O => acc
  | S f =>
      let acc' := String (digit (n mod 10)) acc in
      if n <? 10 then acc' else nat_digits f (n / 10) acc'
  end.

Definition str_int (z : Z) : string :=
  let a := Z.abs z in
  let ds := nat_digits (S (Z.to_nat (Z.log2 (a + 1)))) a EmptyString in
  if z <? 0 then String "-" ds else ds.

End Py.

#[local] Set Warnings "-register-all".

(** ** JSON values as returned by [json.loads] *)
Inductive json : Type :=
| JNull
| JBool (b : bool)
| JInt (z : Z)
| JStr (s : string)
| JArr (l : list json)
| JObj (kv : list (string * json)).

Module Json.

(** Python truthiness of a decoded value. *)
Definition truthy (v : json) : bool :=
  match v with
  | JNull => false
  | JBool b => b
  | JInt z => negb (z =? 0)
  | JStr s => negb (Py.is_empty s)
  | JArr l => match l with [] => false | _ => true end
  | JObj kv => match kv with [] => false | _ => true end
  end.

(** [d.get(k)] on a decoded object: the last binding of a key wins
    (as in [json.loads]); a missing key gives [None]. *)
Definition get (kv : list (string * json)) (k : string) : json :=
  fold_left (fun acc p => if String.eqb (fst p) k then snd p else acc) kv JNull.

(** [repr(v)].  Strings are quoted with single quotes, without escaping. *)
Fixpoint repr (v : json) : string :=
  match v with
  | JNull => "None"
  | JBool true => "True"
  | JBool false => "False"
  | JInt z => Py.str_int z
  | JStr s => "'" ++ s ++ "'"
  | JArr l => "[" ++ String.concat ", " (map repr l) ++ "]"
  | JObj kv =>
      "{" ++ String.concat ", "
        (map (fun p => "'" ++ fst p ++ "': " ++ repr (snd p)) kv) ++ "}"
  end.

(** [str(v)] *)
Definition str (v : json) : string :=
  match v with
  | JStr s => s
  | _ => repr v
  end.

(** [(v or "")] followed by a string method: [None] when the value is a
    truthy non-string (the method call raises). *)
Definition or_empty_str (v : json) : option string :=
  if truthy v then match v with JStr s => Some s | _ => None end
  else Some "".

(** [str(v or "")] *)
Definition str_or_empty (v : json) : string :=
  if truthy v then str v else "".

End Json.

(** ** [_ol_cover_url] *)
Definition _ol_cover_url (cover_i isbn olid : string) : string :=
  let cover_i := Py.strip cover_i in
  let isbn := Py.strip isbn in
  let olid := Py.strip olid in
  if negb (Py.is_empty cover_i) then
    "https://covers.openlibrary.org/b/id/" ++ cover_i ++ "-L.jpg"
  else if negb (Py.is_empty isbn) then
    "https://covers.openlibrary.org/b/isbn/" ++ isbn ++ "-L.jpg"
  else if negb (Py.is_empty olid) then
    "https://covers.openlibrary.org/b/olid/" ++ olid ++ "-L.jpg"
  else "".

(** ** [urllib.parse.quote] with its default [safe='/'] *)
Module Url.

Definition is_safe (c : ascii) : bool :=
  let n := nat_of_ascii c in
  ((48 <=? n) && (n <=? 57))%nat || ((65 <=? n) && (n <=? 90))%nat
  || ((97 <=? n) && (n <=? 122))%nat
  || existsb (fun d => Ascii.eqb c d) ["_"; "."; "-"; "~"; "/"]%char.

Definition hex_digit (n : nat) : ascii :=
  if (n <? 10)%nat then ascii_of_nat (48 + n) else ascii_of_nat (55 + n).

Fixpoint quote (s : string) : string :=
  match s with
  | EmptyString => EmptyString
  | String c r =>
      if is_safe c then String c (quote r)
      else let n := nat_of_ascii c in
           String "%" (String (hex_digit (n / 16)) (String (hex_digit (n mod 16)) (quote r)))
  end.

End Url.

(** ** [_ol_best_match] *)

(** The dict returned on a match: [{cover, cover_i, isbn, olid, year}]. *)
Record meta := mkMeta {
  m_cover : string;
  m_cover_i : string;
  m_isbn : string;
  m_olid : string;
  m_year : string
}.

(** Outcome of a Python call: a returned value or a raised exception. *)
Inductive result (A : Type) : Type :=
| Ret (a : A)
| Raise.
Arguments Ret {A} a.
Arguments Raise {A}.

(** The search endpoint: [None] stands for any exception caught by the
    [try] block (timeout, connection error, non-success status raised by
    [urlopen], undecodable or non-JSON body); [Some data] is the decoded
    JSON document of a successful response. *)
Definition endpoint := string -> option json.

Module Matcher.

(** The nested [score(doc)]; [None] when it raises. *)
Definition score (t_low a_low : string) (doc : json) : option Z :=
  match doc with
  | JObj d =>
      match Json.or_empty_str (Json.get d "title") with
      | None => None
      | Some raw_title =>
          let d_title := Py.lower (Py.strip raw_title) in
          let s_title :=
            if String.eqb d_title t_low then 50
            else if negb (Py.is_empty t_low) && Py.contains t_low d_title then 25
            else 0 in
          let first_author :=
            match Json.get d "author_name" with
            | JArr (a0 :: _) =>
                option_map (fun x => Py.lower (Py.strip x)) (Json.or_empty_str a0)
            | _ => Some ""
            end in
          match first_author with
          | None => None
          | Some first_author =>
              let s_author :=
                if negb (Py.is_empty a_low) && negb (Py.is_empty first_author) then
                  if String.eqb first_author a_low then 50
                  else if Py.contains a_low first_author || Py.contains first_author a_low
                  then 25 else 0
                else 0 in
              let s_cover := if Json.truthy (Json.get d "cover_i") then 10 else 0 in
              let s_isbn :=
                match Json.get d "isbn" with JArr (_ :: _) => 3 | _ => 0 end in
              Some (s_title + s_author + s_cover + s_isbn)
          end
      end
  | _ => None
  end.

(** [max(docs, key=score)]: the key is evaluated on every element in
    order, and the running best is replaced only by a strictly larger key. *)
Fixpoint max_from (f : json -> option Z) (best : json) (bs : Z) (l : list json)
  : option json :=
  match l with
  | [] => Some best
  | x :: r =>
      match f x with
      | None => None
      | Some sx => if bs <? sx then max_from f x sx r else max_from f best bs r
      end
  end.

Definition py_max (f : json -> option Z) (l : list json) : option json :=
  match l with
  | [] => None
  | x :: r => match f x with None => None | Some sx => max_from f x sx r end
  end.

(** [str(v or "").strip()] of the first element of a list field. *)
Definition first_of_list (v : json) : string :=
  match v with
  | JArr (x :: _) => Py.strip (Json.str_or_empty x)
  | _ => ""
  end.

(** [isinstance(v, int)] holds for Python ints and for booleans. *)
Definition year_of (v : json) : string :=
  match v with
  | JInt _ | JBool _ => Json.str v
  | _ => ""
  end.

(** The fields read from the winning document. *)
Definition extract (best : list (string * json)) : meta :=
  let cover_i := Py.strip (Json.str_or_empty (Json.get best "cover_i")) in
  let olid := first_of_list (Json.get best "edition_key") in
  let isbn := first_of_list (Json.get best "isbn") in
  let year := year_of (Json.get best "first_publish_year") in
  mkMeta (_ol_cover_url cover_i isbn olid) cover_i isbn olid year.

Definition query_url (t a : string) : string :=
  let q := if Py.is_empty a then t else t ++ " " ++ a in
  "https://openlibrary.org/search.json?q=" ++ Url.quote q ++ "&limit=20&page=1".

(** [_ol_best_match(title, author)]: the URLs requested, and the outcome;
    [Ret None] is the empty dict [{}]. *)
Definition _ol_best_match (net : endpoint) (title author : string)
  : list string * result (option meta) :=
  let t := Py.strip title in
  let a := Py.strip author in
  if Py.is_empty t then ([], Ret None)
  else
    let url := query_url t a in
    ([url],
     match net url with
     | None => Ret None
     | Some (JObj data) =>
         let docs := Json.get data "docs" in
         if negb (Json.truthy docs) then Ret None
         else
           match docs with
           | JArr l =>
               match py_max (score (Py.lower t) (Py.lower a)) l with
               | Some (JObj best) => Ret (Some (extract best))
               | _ => Raise
               end
           (* a truthy str or dict iterates to str items, whose [.get]
              raises; an int or a bool is not iterable *)
           | _ => Raise
           end
     (* [data.get] on a decoded list, string, number or null *)
     | Some _ => Raise
     end).

End Matcher.

(** ** The catalog store and [_ensure_seeded_curated] *)

(** A [Book] row (the columns the seeder writes). *)
Record book := mkBook {
  b_title : string;
  b_author : string;
  b_genre : string;
  b_year : string;
  b_cover : string;
  b_olid : string;
  b_cover_i : string;
  b_isbn : string
}.

(** Observable effects: an HTTP request, a row added to the session,
    a commit. *)
Inductive event : Type :=
| EvHttp (url : string)
| EvAdd (b : book)
| EvCommit.

(** The database as seen through the SQLAlchemy session: committed rows,
    rows added but not committed, and the trace of effects. *)
Record world := mkWorld {
  committed : list book;
  pending : list book;
  trace : list event
}.

Module Store.

Definition M (A : Type) : Type := world -> result A * world.

Definition ret {A} (a : A) : M A := fun w => (Ret a, w).

Definition bind {A B} (m : M A) (k : A -> M B) : M B :=
  fun w => match m w with
           | (Ret a, w') => k a w'
           | (Raise, w') => (Raise, w')
           end.

Notation "x <- m ;; k" := (bind m (fun x => k))
  (at level 61, m at next level, right associativity).

(** Session queries autoflush: they see the pending rows too. *)
Definition visible (w : world) : list book := committed w ++ pending w.

(** [Book.query.count()] *)
Definition count : M Z := fun w => (Ret (Z.of_nat (length (visible w))), w).

Definition same_key (title author : string) (b : book) : bool :=
  String.eqb (b_title b) title && String.eqb (b_author b) author.

(** [Book.query.filter_by(title=title, author=author).first()] is truthy *)
Definition find (title author : string) : M bool :=
  fun w => (Ret (existsb (same_key title author) (visible w)), w).

(** [db.session.add(b)] *)
Definition add (b : book) : M unit :=
  fun w => (Ret tt, mkWorld (committed w) (pending w ++ [b]) (trace w ++ [EvAdd b])).

(** [db.session.commit()] *)
Definition commit : M unit :=
  fun w => (Ret tt, mkWorld (committed w ++ pending w) [] (trace w ++ [EvCommit])).

(** Leaving [app.app_context()]: the scoped session is removed, which rolls
    back whatever was not committed. *)
Definition in_app_context {A} (m : M A) : M A :=
  fun w => let '(r, w') := m w in (r, mkWorld (committed w') [] (trace w')).

(** A call of [_ol_best_match], recording its HTTP requests. *)
Definition best_match (net : endpoint) (title author : string) : M (option meta) :=
  fun w => let '(urls, r) := Matcher._ol_best_match net title author in
           (r, mkWorld (committed w) (pending w) (trace w ++ map EvHttp urls)).

End Store.

Import Store.

Definition PLACEHOLDER_COVER : string :=
  "https://placehold.co/400x600/EEE/AAA?text=No+Cover".

(** A curated [(title, author, genre)] triple; a shelf is a named list
    of them, in the insertion order of [CURATED_SHELVES]. *)
Definition item : Type := (string * string * string)%type.
Definition shelves : Type := list (string * list item).

(** [meta.get(k) or ""] on [_ol_best_match(...) or {}] *)
Definition meta_get (m : option meta) (f : meta -> string) : string :=
  match m with Some x => f x | None => "" end.

Section Seeder.

Variable net : endpoint.

(** The body of the inner loop of [_ensure_seeded_curated]. *)
Definition seed_item (it : item) : M unit :=
  let '(title0, author0, genre0) := it in
  let title := Py.strip title0 in
  let author := Py.strip author0 in
  let genre := Py.strip (if Py.is_empty genre0 then "Other" else genre0) in
  if Py.is_empty title || Py.is_empty author then ret tt
  else
    found <- find title author ;;
    if found then ret tt
    else
      m <- best_match net title author ;;
      let c := Py.strip (meta_get m m_cover) in
      let cover := if Py.is_empty c then PLACEHOLDER_COVER else c in
      add (mkBook title author genre
             (Py.strip (meta_get m m_year)) cover
             (Py.strip (meta_get m m_olid))
             (Py.strip (meta_get m m_cover_i))
             (Py.strip (meta_get m m_isbn))).

Fixpoint seed_items (items : list item) : M unit :=
  match items with
  | [] => ret tt
  | it :: rest => _ <- seed_item it ;; seed_items rest
  end.

Fixpoint seed_shelves (ss : shelves) : M unit :=
  match ss with
  | [] => ret tt
  | (_, items) :: rest => _ <- seed_items items ;; seed_shelves rest
  end.

(** [_ensure_seeded_curated(min_books)], over the curated shelves [ss]. *)
Definition _ensure_seeded_curated (ss : shelves) (min_books : Z) : M unit :=
  current_count <- count ;;
  if min_books <=? current_count then ret tt
  else
    _ <- seed_shelves ss ;;
    commit.

End Seeder.

Definition CURATED_SHELVES : shelves := [
  ("Classics", [
    ("Pride and Prejudice", "Jane Austen", "Classics");
    ("Wuthering Heights", "Emily Brontë", "Classics");
    ("Jane Eyre", "Charlotte Brontë", "Classics");
    ("Great Expectations", "Charles Dickens", "Classics");
    ("The Great Gatsby", "F. Scott Fitzgerald", "Classics");
    ("Crime and Punishment", "Fyodor Dostoevsky", "Classics");
    ("Frankenstein", "Mary Shelley", "Classics");
    ("Dracula", "Bram Stoker", "Classics");
    ("The Picture of Dorian Gray", "Oscar Wilde", "Classics");
    ("1984", "George Orwell", "Classics");
    ("Brave New World", "Aldous Huxley", "Classics")]);
  ("Cult favourites", [
    ("The Secret History", "Donna Tartt", "Literary");
    ("Fight Club", "Chuck Palahniuk", "Literary");
    ("American Psycho", "Bret Easton Ellis", "Literary");
    ("The Handmaid's Tale", "Margaret Atwood", "Dystopian");
    ("The Bell Jar", "Sylvia Plath", "Literary");
    ("The Road", "Cormac McCarthy", "Literary");
    ("Gone Girl", "Gillian Flynn", "Mystery");
    ("The Shining", "Stephen King", "Horror")]);
  ("Trending", [
    ("Fourth Wing", "Rebecca Yarros", "Fantasy");
    ("Iron Flame", "Rebecca Yarros", "Fantasy");
    ("The Seven Husbands of Evelyn Hugo", "Taylor Jenkins Reid", "Romance");
    ("The Song of Achilles", "Madeline Miller", "Fantasy");
    ("It Ends with Us", "Colleen Hoover", "Romance");
    ("The Silent Patient", "Alex Michaelides", "Mystery")])
]%string.

(** The module-level startup call [_ensure_seeded_curated(min_books=250)]. *)
Definition startup (net : endpoint) : M unit :=
  in_app_context (_ensure_seeded_curated net CURATED_SHELVES 250).

Definition no_net : endpoint := fun _ => None.

Definition doc_1984 : json :=
  JObj [("title", JStr "Nineteen Eighty-Four"); ("author_name", JArr [JStr "George Orwell"]);
        ("cover_i", JInt 153541); ("isbn", JArr [JStr "9780141182636"]);
        ("edition_key", JArr [JStr "OL1M"]); ("first_publish_year", JInt 1949)].
Definition doc_1984b : json :=
  JObj [("title", JStr "1984"); ("author_name", JArr [JStr "george orwell"]);
        ("cover_i", JInt 7); ("edition_key", JArr [JStr "OL2M"])].


Definition title_1984_body : json :=
  JObj [("docs", JArr [JObj [("title", JInt 1984)]])].

Definition cover_true_body : json :=
  JObj [("docs", JArr [JObj [("title", JStr "Dune"); ("cover_i", JBool true)]])].

(** The first listed author as [score] reads it: [Some ""] when the field
    is not a non-empty list, [None] when its first element is a truthy
    non-string. *)
Definition first_author_raw (d : list (string * json)) : option string :=
  match Json.get d "author_name" with
  | JArr (a0 :: _) => Json.or_empty_str a0
  | _ => Some ""
  end.

(** ** Scoring rules stated by the claims *)

(** The scoring rule in the words of claim C1: exact case-insensitive
    title match, else containment of the lowercased query title; author
    bonus when an author is supplied and the candidate lists at least one
    author; cover bonus when a cover id is present; ISBN bonus when the
    candidate lists at least one ISBN. *)
Module Claimed.

Definition text (v : json) : string := match v with JStr s => s | _ => "" end.

Definition score_C1 (title author : string) (doc : json) : Z :=
  match doc with
  | JObj d =>
      let qt := Py.lower title in
      let ct := Py.lower (text (Json.get d "title")) in
      let qa := Py.lower author in
      (if String.eqb ct qt then 50 else if Py.contains qt ct then 25 else 0) +
      (match Json.get d "author_name" with
       | JArr (fa :: _) =>
           if Py.is_empty author then 0
           else let fa := Py.lower (text fa) in
                if String.eqb fa qa then 50
                else if Py.contains qa fa || Py.contains fa qa then 25 else 0
       | _ => 0
       end) +
      (match Json.get d "cover_i" with JNull => 0 | _ => 10 end) +
      (match Json.get d "isbn" with JArr (_ :: _) => 3 | _ => 0 end)
  | _ => 0
  end.

End Claimed.

(** The scoring rule as corrected: titles and the first listed author are
    compared after trimming and lowercasing; the author bonus needs both
    the supplied author and the first listed author non-empty after
    trimming; the cover bonus needs a truthy cover id; the ISBN bonus a
    non-empty ISBN list. *)
Module Amended.

Definition title_bonus (title cand_title : string) : Z :=
  let q := Py.lower (Py.strip title) in
  let c := Py.lower (Py.strip cand_title) in
  if String.eqb c q then 50 else if Py.contains q c then 25 else 0.

Definition author_bonus (author first_author : string) : Z :=
  let q := Py.lower (Py.strip author) in
  let f := Py.lower (Py.strip first_author) in
  if Py.is_empty q || Py.is_empty f then 0
  else if String.eqb f q then 50
  else if Py.contains q f || Py.contains f q then 25 else 0.

Definition cover_bonus (d : list (string * json)) : Z :=
  if Json.truthy (Json.get d "cover_i") then 10 else 0.

Definition isbn_bonus (d : list (string * json)) : Z :=
  match Json.get d "isbn" with JArr (_ :: _) => 3 | _ => 0 end.

End Amended.

Definition empty_author_doc : json :=
  JObj [("title", JStr "Dune"); ("author_name", JArr [JStr ""])].

Definition padded_title_doc : json :=
  JObj [("title", JStr "Dune "); ("author_name", JArr [JStr "Frank Herbert"]);
        ("cover_i", JInt 44); ("isbn", JArr [JStr "9780441172719"])].

Definition two_items : shelves :=
  [("Shelf", [("Dune", "Frank Herbert", "Sci-Fi"); ("Emma", "Jane Austen", "Classics")])].

Definition blank_genre_shelf : shelves :=
  [("Shelf", [("Dune", "Frank Herbert", "  ")])].

Definition austen : book :=
  mkBook "Pride and Prejudice" "Jane Austen" "Classics" "1813" PLACEHOLDER_COVER "" "" "".

Definition is_http (e : event) : bool := match e with EvHttp _ => true | _ => false end.

(** ** [_time_ago] *)

(** Timestamps are microseconds since the epoch; [None] is a missing
    [created] value.  [int(diff.total_seconds())] truncates toward zero. *)
Definition _time_ago (now : Z) (dt : option Z) : string :=
  match dt with
  | None => ""
  | Some dt =>
      let seconds := Z.quot (now - dt) 1000000 in
      if seconds <? 60 then "just now" else
      let minutes := seconds / 60 in
      if minutes <? 60 then Py.str_int minutes ++ "m ago" else
      let hours := minutes / 60 in
      if hours <? 24 then Py.str_int hours ++ "h ago" else
      let days := hours / 24 in
      if days <? 7 then Py.str_int days ++ "d ago" else
      let weeks := days / 7 in
      if weeks <? 5 then Py.str_int weeks ++ "w ago" else
      let months := days / 30 in
      if months <? 12 then Py.str_int months ++ "mo ago" else
      let years := days / 365 in
      Py.str_int years ++ "y ago"
  end.

(** ** String-valued dicts (form data and UI book dicts) *)

Definition dict : Type := list (string * string).

(** [d.get(k)]: the last binding of a key wins. *)
Definition dget (d : dict) (k : string) : option string :=
  fold_left (fun acc p => if String.eqb (fst p) k then Some (snd p) else acc) d None.

(** [d.get(k) or dflt] *)
Definition get_or (d : dict) (k dflt : string) : string :=
  match dget d k with
  | Some s => if Py.is_empty s then dflt else s
  | None => dflt
  end.

(** [s or dflt] on a string *)
Definition or_str (s dflt : string) : string := if Py.is_empty s then dflt else s.

(** [Book.query.filter_by(title=..., author=...).first()], in row order. *)
Definition find_first (title author : string) : M (option book) :=
  fun w => (Ret (List.find (same_key title author) (visible w)), w).

(** ** [get_or_create_book_row] *)
Definition get_or_create_book_row (book_dict : dict) : M (option book) :=
  let title := Py.strip (get_or book_dict "title" "") in
  let author := Py.strip (get_or book_dict "author" "") in
  if Py.is_empty title || Py.is_empty author then ret None
  else
    existing <- find_first title author ;;
    match existing with
    | Some b => ret (Some b)
    | None =>
        let b := mkBook title author (get_or book_dict "genre" "Other")
                   (get_or book_dict "year" "") (get_or book_dict "cover" PLACEHOLDER_COVER)
                   "" "" "" in
        _ <- add b ;;
        _ <- commit ;;
        ret (Some b)
    end.

(** ** The POST branch of [add_book]: the flashed message and the
    redirect target. *)
Definition add_book_post (net : endpoint) (form : dict) : M (string * string) :=
  let title := Py.strip (get_or form "title" "") in
  let author := Py.strip (get_or form "author" "") in
  let genre := or_str (Py.strip (get_or form "genre" "")) "Other" in
  let year := Py.strip (get_or form "year" "") in
  let cover := Py.strip (get_or form "cover" "") in
  if Py.is_empty title || Py.is_empty author then
    ret ("Title and author are required.", "add_book")
  else
    existing <- find title author ;;
    if existing then ret ("That book already exists.", "add_review")
    else
      m <- best_match net title author ;;
      let best_cover := or_str (meta_get m m_cover) (or_str cover PLACEHOLDER_COVER) in
      let b := mkBook title author genre (or_str year (meta_get m m_year)) best_cover
                 (meta_get m m_olid) (meta_get m m_cover_i) (meta_get m m_isbn) in
      _ <- add b ;;
      _ <- commit ;;
      ret ("Book added!", "add_review").

(** ** The result loop of [_ol_search] and [api_openlibrary] *)

(** One search result: [{title, author, year, cover, cover_i, isbn, olid}]. *)
Record ol_row := mkRow {
  r_title : string;
  r_author : string;
  r_year : string;
  r_cover : string;
  r_cover_i : string;
  r_isbn : string;
  r_olid : string
}.

(** The body of [for d in (data.get("docs") or [])]: [None] when it raises,
    [Some None] when the document is skipped. *)
Definition parse_doc (d : json) : option (option ol_row) :=
  match d with
  | JObj kv =>
      match Json.or_empty_str (Json.get kv "title") with
      | None => None
      | Some t0 =>
          let title := Py.strip t0 in
          let author_o :=
            match Json.get kv "author_name" with
            | JArr (a0 :: _) => option_map Py.strip (Json.or_empty_str a0)
            | _ => Some ""
            end in
          match author_o with
          | None => None
          | Some author =>
              let year := Matcher.year_of (Json.get kv "first_publish_year") in
              let cover_i := Py.strip (Json.str_or_empty (Json.get kv "cover_i")) in
              let isbn := Matcher.first_of_list (Json.get kv "isbn") in
              let olid := Matcher.first_of_list (Json.get kv "edition_key") in
              let cover := _ol_cover_url cover_i isbn olid in
              if negb (Py.is_empty title) && negb (Py.is_empty author) then
                Some (Some (mkRow title author year cover cover_i isbn olid))
              else Some None
          end
      end
  (* a list, string or number has no [.get] *)
  | _ => None
  end.

Fixpoint parse_list (l : list json) : result (list ol_row) :=
  match l with
  | [] => Ret []
  | d :: r =>
      match parse_doc d with
      | None => Raise
      | Some o =>
          match parse_list r with
          | Raise => Raise
          | Ret rows => Ret (match o with Some x => x :: rows | None => rows end)
          end
      end
  end.




(** ** [_ol_description_for] *)

(** Its nested [score(doc)]; [None] when it raises. *)
Definition desc_score (t_low a_low : string) (doc : json) : option Z :=
  match doc with
  | JObj d =>
      match Json.or_empty_str (Json.get d "title") with
      | None => None
      | Some raw_title =>
          let d_title := Py.lower (Py.strip raw_title) in
          let s_title :=
            if String.eqb d_title t_low then 50
            else if Py.contains t_low d_title then 25
            else 0 in
          let first_author :=
            match Json.get d "author_name" with
            | JArr (a0 :: _) =>
                option_map (fun x => Py.lower (Py.strip x)) (Json.or_empty_str a0)
            | _ => Some ""
            end in
          match first_author with
          | None => None
          | Some first_author =>
              let s_author :=
                if negb (Py.is_empty a_low) && negb (Py.is_empty first_author) then
                  if String.eqb first_author a_low then 50
                  else if Py.contains a_low first_author || Py.contains first_author a_low
                  then 25 else 0
                else 0 in
              let s_key := if Json.truthy (Json.get d "key") then 5 else 0 in
              Some (s_title + s_author + s_key)
          end
      end
  | _ => None
  end.

(** The UTF-8 bytes of ["…"]. *)
Definition ellipsis : string :=
  String (ascii_of_nat 226) (String (ascii_of_nat 128) (String (ascii_of_nat 166) EmptyString)).

(** [s.rsplit(" ", 1)[0]]: everything before the last space, or [s]
    itself when it has none. *)
Fixpoint rsplit_head (s : string) : string :=
  match s with
  | EmptyString => EmptyString
  | String c r =>
      if Py.contains " " r then String c (rsplit_head r)
      else if Ascii.eqb c " "%char then EmptyString else s
  end.

(** The "keep it tidy for UI" step. *)
Definition tidy (desc : string) : string :=
  let desc := Py.strip desc in
  if (600 <? String.length desc)%nat then
    Py.rstrip (rsplit_head (substring 0 600 desc)) ++ ellipsis
  else desc.

(** [_ol_description_for(title, author)]: the URLs requested and the
    outcome. *)
Definition _ol_description_for (net : endpoint) (title author : string)
  : list string * result string :=
  let t := Py.strip title in
  let a := Py.strip author in
  if Py.is_empty t then ([], Ret "")
  else
    let q := if Py.is_empty a then t else t ++ " " ++ a in
    let search_url :=
      "https://openlibrary.org/search.json?q=" ++ Url.quote q ++ "&limit=5&page=1" in
    match net search_url with
    | None => ([search_url], Ret "")
    | Some (JObj data) =>
        let docs := Json.get data "docs" in
        if negb (Json.truthy docs) then ([search_url], Ret "")
        else
          match docs with
          | JArr l =>
              match Matcher.py_max (desc_score (Py.lower t) (Py.lower a)) l with
              | Some (JObj best) =>
                  let wk0 := Matcher.first_of_list (Json.get best "work_key") in
                  let work_key :=
                    if Py.is_empty wk0 then
                      let k := Py.strip (Json.str_or_empty (Json.get best "key")) in
                      if String.prefix "/works/" k then k else ""
                    else wk0 in
                  if Py.is_empty work_key then ([search_url], Ret "")
                  else
                    let work_url := "https://openlibrary.org" ++ work_key ++ ".json" in
                    ([search_url; work_url],
                     match net work_url with
                     | None => Ret ""
                     | Some (JObj work) =>
                         let desc := Json.get work "description" in
                         let desc := match desc with
                                     | JObj d => Json.get d "value"
                                     | _ => desc
                                     end in
                         match desc with
                         | JStr s => Ret (tidy s)
                         | _ => Ret ""
                         end
                     (* [work.get] on a non-dict *)
                     | Some _ => Raise
                     end)
              | _ => ([search_url], Raise)
              end
          | _ => ([search_url], Raise)
          end
    (* [data.get] on a non-dict *)
    | Some _ => ([search_url], Raise)
    end.

(** ** [all_books_ui] *)

(** A book dict as the templates receive it (the [rating] float is left
    out). *)
Record ui_book := mkUi {
  u_title : string;
  u_author : string;
  u_genre : string;
  u_year : string;
  u_cover : string
}.

(** [d.get(k, dflt)] *)
Definition dget_default (d : dict) (k dflt : string) : string :=
  match dget d k with Some s => s | None => dflt end.

(** A value of [_DEMO_COVER_CACHE]: the whole match dict, or
    [{"cover": cover}]. *)
Inductive cache_entry : Type :=
| CMeta (m : meta)
| CCover (c : string).

(** [entry.get("cover")] *)
Definition entry_cover (e : cache_entry) : string :=
  match e with CMeta m => m_cover m | CCover c => c end.

(** [_DEMO_COVER_CACHE], keyed by [(title, author)]; entries are only ever
    added for absent keys, so the first binding is the entry. *)
Definition cover_cache : Type := list ((string * string) * cache_entry).

Definition key_eqb (k1 k2 : string * string) : bool :=
  String.eqb (fst k1) (fst k2) && String.eqb (snd k1) (snd k2).

Fixpoint cache_get (c : cover_cache) (k : string * string) : option cache_entry :=
  match c with
  | [] => None
  | (k', e) :: r => if key_eqb k' k then Some e else cache_get r k
  end.

(** The loop over the demo [BOOKS]: the URLs requested, the rows, and the
    cache afterwards (it is global, so it keeps what was added before an
    exception). *)
Fixpoint demo_loop (net : endpoint) (bs : list dict) (c : cover_cache)
  : list string * result (list ui_book) * cover_cache :=
  match bs with
  | [] => ([], Ret [], c)
  | b :: rest =>
      let title := dget_default b "title" "" in
      let author := dget_default b "author" "" in
      let key := (title, author) in
      let cover := get_or b "cover" "" in
      let '(urls1, r1, c1) :=
        match cache_get c key with
        | Some _ => ([], Ret tt, c)
        | None =>
            let '(urls, r) := Matcher._ol_best_match net title author in
            match r with
            | Raise => (urls, Raise, c)
            | Ret m =>
                let e := match m with
                         | Some x => if Py.is_empty (m_cover x) then CCover cover else CMeta x
                         | None => CCover cover
                         end in
                (urls, Ret tt, (c ++ [(key, e)])%list)
            end
        end in
      match r1 with
      | Raise => (urls1, Raise, c1)
      | Ret _ =>
          let cached := match cache_get c1 key with Some e => entry_cover e | None => "" end in
          let best_cover := or_str cached cover in
          let row := mkUi title author (dget_default b "genre" "Other")
                       (dget_default b "year" "") (or_str best_cover PLACEHOLDER_COVER) in
          let '(urls2, r2, c2) := demo_loop net rest c1 in
          ((urls1 ++ urls2)%list,
           match r2 with Raise => Raise | Ret rows => Ret (row :: rows) end, c2)
      end
  end.

(** The cover shown for a DB row: [built or (bk.cover or "") or
    PLACEHOLDER_COVER]. *)
Definition db_cover (bk : book) : string :=
  or_str (_ol_cover_url (b_cover_i bk) (b_isbn bk) (b_olid bk))
         (or_str (b_cover bk) PLACEHOLDER_COVER).

(** ** The in-memory [FOLLOWING] and [FOLLOWERS] lists *)

(** [{"name": ..., "handle": ...}] *)
Record person := mkPerson { p_name : string; p_handle : string }.

(** The JSON responses of the two endpoints. *)
Inductive api_resp : Type :=
| RMissing      (* [{"ok": False, "error": "missing handle"}, 400] *)
| RNotFound     (* [{"ok": False, "error": "not found"}, 404] *)
| RUnfollowed   (* [{"ok": True, "state": "unfollowed"}] *)
| RFollowed     (* [{"ok": True, "state": "followed"}] *)
| ROk.          (* [{"ok": True}] *)

(** [(data.get("handle") or "").strip()] on [request.get_json(force=True) or {}];
    [None] when it raises (a non-object body, or a non-string handle). *)
Definition handle_of (body : json) : option string :=
  let data := if Json.truthy body then body else JObj [] in
  match data with
  | JObj kv => option_map Py.strip (Json.or_empty_str (Json.get kv "handle"))
  | _ => None
  end.

(** [FOLLOWING.pop(idx)] at [idx = next(i for i, p in enumerate(L) if
    p["handle"] == handle)]; [None] when no entry has the handle. *)
Fixpoint pop_handle (h : string) (l : list person) : option (list person) :=
  match l with
  | [] => None
  | p :: r =>
      if String.eqb (p_handle p) h then Some r
      else option_map (cons p) (pop_handle h r)
  end.

Definition is_alpha (c : ascii) : bool :=
  let n := nat_of_ascii c in
  ((65 <=? n) && (n <=? 90))%nat || ((97 <=? n) && (n <=? 122))%nat.

Definition upper_char (c : ascii) : ascii :=
  let n := nat_of_ascii c in
  if ((97 <=? n) && (n <=? 122))%nat then ascii_of_nat (n - 32) else c.

(** [str.title()] on ASCII: a letter is upper-cased after a non-letter and
    lower-cased after a letter. *)
Fixpoint title_from (prev_cased : bool) (s : string) : string :=
  match s with
  | EmptyString => EmptyString
  | String c r =>
      if is_alpha c then
        String (if prev_cased then Py.lower_char c else upper_char c) (title_from true r)
      else String c (title_from false r)
  end.

Definition title_case (s : string) : string := title_from false s.

(** [s.lstrip("@")] *)
Fixpoint lstrip_at (s : string) : string :=
  match s with
  | String c r => if Ascii.eqb c "@"%char then lstrip_at r else s
  | EmptyString => EmptyString
  end.

(** [s.replace("_", " ")] *)
Fixpoint replace_us (s : string) : string :=
  match s with
  | EmptyString => EmptyString
  | String c r => String (if Ascii.eqb c "_"%char then " "%char else c) (replace_us r)
  end.

Definition name_guess (handle : string) : string :=
  or_str (title_case (replace_us (lstrip_at handle))) "User".

(** [POST /api/following/toggle] on [FOLLOWING]. *)
Definition api_following_toggle (body : json) (following : list person)
  : result (api_resp * list person) :=
  match handle_of body with
  | None => Raise
  | Some handle =>
      if Py.is_empty handle then Ret (RMissing, following)
      else match pop_handle handle following with
           | Some rest => Ret (RUnfollowed, rest)
           | None => Ret (RFollowed, (following ++ [mkPerson (name_guess handle) handle])%list)
           end
  end.

(** [POST /api/followers/remove] on [FOLLOWERS]. *)
Definition api_followers_remove (body : json) (followers : list person)
  : result (api_resp * list person) :=
  match handle_of body with
  | None => Raise
  | Some handle =>
      if Py.is_empty handle then Ret (RMissing, followers)
      else match pop_handle handle followers with
           | None => Ret (RNotFound, followers)
           | Some rest => Ret (ROk, rest)
           end
  end.

(** ** Handles: [signup], [edit_profile], [qr_profile], [public_profile] *)

(** The handle [signup] stores for the raw form value. *)
Definition signup_handle (form_handle : string) : string :=
  let handle_raw := Py.strip form_handle in
  if String.prefix "@" handle_raw then handle_raw
  else if negb (Py.is_empty handle_raw) then "@" ++ handle_raw
  else "".

(** The text fields of the user that [edit_profile] writes. *)
Record profile := mkProfile { pr_name : string; pr_handle : string; pr_bio : string }.

(** The text-field part of a POST to [edit_profile] (the avatar upload
    is left out). *)
Definition edit_profile_text (form : dict) (u : profile) : profile :=
  let new_name := Py.strip (get_or form "name" "") in
  let new_handle := Py.strip (get_or form "handle" "") in
  let new_bio := Py.strip (get_or form "bio" "") in
  let name := if negb (Py.is_empty new_name) then new_name else pr_name u in
  let handle :=
    if negb (Py.is_empty new_handle) then
      if String.prefix "@" new_handle then new_handle else "@" ++ new_handle
    else pr_handle u in
  mkProfile name handle (substring 0 200 new_bio).




(** ** [theme_settings] and [language_settings] *)

Definition LANGS : list string := ["English"; "Español"; "Français"; "Deutsch"; "Italiano"].

(** The theme a POST stores in the session. *)
Definition theme_post (form : dict) : string :=
  let theme := Py.lower (get_or form "theme" "light") in
  if String.eqb theme "light" || String.eqb theme "dark" then theme else "light".

(** The language a POST stores in the session. *)
Definition language_post (form : dict) : string :=
  let lang := get_or form "lang" "English" in
  if existsb (String.eqb lang) LANGS then lang else "English".

(** ** [api_search_books] and [browse] over the [all_books_ui] list *)

(** A suggestion [{title, author, cover, rating, genre}] (the rating is
    left out). *)
Record hit := mkHit { h_title : string; h_author : string; h_cover : string; h_genre : string }.

Definition book_matches (q : string) (b : ui_book) : bool :=
  Py.contains q (Py.lower (u_title b)) || Py.contains q (Py.lower (u_author b)).

Definition api_search_books (q0 : string) (books : list ui_book) : list hit :=
  let q := Py.lower (Py.strip q0) in
  if Py.is_empty q then []
  else firstn 8 (map (fun b => mkHit (u_title b) (u_author b) (u_cover b) (u_genre b))
                   (filter (book_matches q) books)).


(** ** Evaluation examples *)

Example strip_ex : Py.strip "  Dune  " = "Dune".
Proof. reflexivity. Qed.
Example lower_ex : Py.lower "Jane AUSTEN" = "jane austen".
Proof. reflexivity. Qed.
Example str_int_ex : Py.str_int 1813 = "1813" /\ Py.str_int 0 = "0" /\ Py.str_int (-45) = "-45".
Proof. repeat split; reflexivity. Qed.
Example contains_ex : Py.contains "pride" "pride and prejudice" = true /\ Py.contains "" "" = true.
Proof. split; reflexivity. Qed.
Example utf8_ex : String.length "Brontë" = 7%nat.
Proof. reflexivity. Qed.
Example quote_ex : Url.quote "1984 George Orwell" = "1984%20George%20Orwell".
Proof. reflexivity. Qed.

Example score_ex :
  Matcher.score "1984" "george orwell" doc_1984 = Some 63 /\ Matcher.score "1984" "george orwell" doc_1984b = Some 110.
Proof. split; reflexivity. Qed.

Example best_match_ex :
  Matcher._ol_best_match (fun _ => Some (JObj [("docs", JArr [doc_1984; doc_1984b])]))
    "1984" "George Orwell" =
  (["https://openlibrary.org/search.json?q=1984%20George%20Orwell&limit=20&page=1"],
   Ret (Some (mkMeta "https://covers.openlibrary.org/b/id/7-L.jpg" "7" "" "OL2M" ""))).
Proof. reflexivity. Qed.

Example startup_ex :
  let w := snd (startup no_net (mkWorld [] [] [])) in
  length (committed w) = 25%nat /\ pending w = [] /\
  length (filter (fun e => match e with EvHttp _ => true | _ => false end) (trace w)) = 25%nat.
Proof. vm_compute. repeat split. Qed.

(** ** Cover URL priority *)

(** C3: [_ol_cover_url] follows the strict priority cover id > ISBN >
    edition id > empty string, each argument taken after trimming. *)
Theorem cover_url_priority (cover_i isbn olid : string) :
  (Py.is_empty (Py.strip cover_i) = false ->
     _ol_cover_url cover_i isbn olid =
       "https://covers.openlibrary.org/b/id/" ++ Py.strip cover_i ++ "-L.jpg") /\
  (Py.is_empty (Py.strip cover_i) = true -> Py.is_empty (Py.strip isbn) = false ->
     _ol_cover_url cover_i isbn olid =
       "https://covers.openlibrary.org/b/isbn/" ++ Py.strip isbn ++ "-L.jpg") /\
  (Py.is_empty (Py.strip cover_i) = true -> Py.is_empty (Py.strip isbn) = true ->
   Py.is_empty (Py.strip olid) = false ->
     _ol_cover_url cover_i isbn olid =
       "https://covers.openlibrary.org/b/olid/" ++ Py.strip olid ++ "-L.jpg") /\
  (Py.is_empty (Py.strip cover_i) = true -> Py.is_empty (Py.strip isbn) = true ->
   Py.is_empty (Py.strip olid) = true ->
     _ol_cover_url cover_i isbn olid = "").
Proof.
  unfold _ol_cover_url.
  repeat split; intros; repeat match goal with H : _ = _ |- _ => rewrite H; clear H end;
    reflexivity.
Qed.

Lemma cover_url_priority_witness :
  _ol_cover_url "123" "9780141182636" "OL1M" =
    "https://covers.openlibrary.org/b/id/123-L.jpg" /\
  _ol_cover_url " " "9780141182636" "OL1M" =
    "https://covers.openlibrary.org/b/isbn/9780141182636-L.jpg".
Proof.
  split.
  - apply (proj1 (cover_url_priority "123" "9780141182636" "OL1M")). reflexivity.
  - apply (proj1 (proj2 (cover_url_priority " " "9780141182636" "OL1M")));
      reflexivity.
Defined.

(** ** Soft failures of the matcher *)

(** C4 (failing input): a successful response whose only document has the
    JSON number 1984 as its title makes [score] call [.strip()] on an int,
    outside the [try] block, so [_ol_best_match] raises instead of
    returning the empty result. *)
Theorem best_match_raises_on_numeric_title :
  Matcher._ol_best_match (fun _ => Some title_1984_body) "1984" "George Orwell" =
  (["https://openlibrary.org/search.json?q=1984%20George%20Orwell&limit=20&page=1"],
   Raise).
Proof. reflexivity. Qed.

(** The cases in which [_ol_best_match] does return the empty dict. *)
Lemma best_match_soft_cases (net : endpoint) (title author : string) :
  (Py.is_empty (Py.strip title) = true ->
     Matcher._ol_best_match net title author = ([], Ret None)) /\
  (Py.is_empty (Py.strip title) = false ->
     net (Matcher.query_url (Py.strip title) (Py.strip author)) = None ->
     Matcher._ol_best_match net title author =
       ([Matcher.query_url (Py.strip title) (Py.strip author)], Ret None)) /\
  (forall data, Py.is_empty (Py.strip title) = false ->
     net (Matcher.query_url (Py.strip title) (Py.strip author)) = Some (JObj data) ->
     Json.truthy (Json.get data "docs") = false ->
     Matcher._ol_best_match net title author =
       ([Matcher.query_url (Py.strip title) (Py.strip author)], Ret None)).
Proof.
  unfold Matcher._ol_best_match.
  repeat split; intros; repeat match goal with H : _ = _ |- _ => rewrite H; clear H end;
    reflexivity.
Qed.

(** ** Stable maximum *)
Section StableMax.

Variable f : json -> option Z.

Lemma max_from_spec (l : list json) : forall b bs,
  (forall x, In x l -> exists s, f x = Some s) ->
  exists r sr, Matcher.max_from f b bs l = Some r /\
    ((r = b /\ sr = bs /\
      forall j x s, nth_error l j = Some x -> f x = Some s -> s <= bs) \/
     (exists i, nth_error l i = Some r /\ f r = Some sr /\ bs < sr /\
      (forall j x s, nth_error l j = Some x -> f x = Some s -> s <= sr) /\
      (forall j x s, (j < i)%nat -> nth_error l j = Some x -> f x = Some s -> s < sr))).
Proof.
  induction l as [|x l IH]; intros b bs Hall.
  - exists b, bs. split; [reflexivity|]. left. repeat split.
    intros [|j] ? ? H; discriminate.
  - destruct (Hall x (or_introl eq_refl)) as [sx Hx].
    assert (Hl : forall y, In y l -> exists s, f y = Some s)
      by (intros y Hy; apply Hall; right; exact Hy).
    simpl. rewrite Hx. destruct (Z.ltb_spec bs sx) as [Hlt|Hge].
    + destruct (IH x sx Hl) as (r & sr & Hr & [(-> & -> & Hle)|(i & Hi & Hfr & Hgt & Hle & Hstr)]).
      * exists x, sx. split; [exact Hr|]. right. exists 0%nat.
        repeat split; try assumption.
        -- intros [|j] y s Hj Hy; simpl in Hj.
           ++ injection Hj as <-. rewrite Hx in Hy. injection Hy as <-. lia.
           ++ exact (Hle j y s Hj Hy).
        -- intros j ? ? Hj. lia.
      * exists r, sr. split; [exact Hr|]. right. exists (S i).
        repeat split; try assumption; try lia.
        -- intros [|j] y s Hj Hy; simpl in Hj.
           ++ injection Hj as <-. rewrite Hx in Hy. injection Hy as <-. lia.
           ++ exact (Hle j y s Hj Hy).
        -- intros [|j] y s Hji Hj Hy; simpl in Hj.
           ++ injection Hj as <-. rewrite Hx in Hy. injection Hy as <-. lia.
           ++ apply (Hstr j y s); [lia|assumption|assumption].
    + destruct (IH b bs Hl) as (r & sr & Hr & [(-> & -> & Hle)|(i & Hi & Hfr & Hgt & Hle & Hstr)]).
      * exists b, bs. split; [exact Hr|]. left. repeat split.
        intros [|j] y s Hj Hy; simpl in Hj.
        -- injection Hj as <-. rewrite Hx in Hy. injection Hy as <-. lia.
        -- exact (Hle j y s Hj Hy).
      * exists r, sr. split; [exact Hr|]. right. exists (S i).
        repeat split; try assumption.
        -- intros [|j] y s Hj Hy; simpl in Hj.
           ++ injection Hj as <-. rewrite Hx in Hy. injection Hy as <-. lia.
           ++ exact (Hle j y s Hj Hy).
        -- intros [|j] y s Hji Hj Hy; simpl in Hj.
           ++ injection Hj as <-. rewrite Hx in Hy. injection Hy as <-. lia.
           ++ apply (Hstr j y s); [lia|assumption|assumption].
Qed.

(** [max(l, key=f)] returns the first element of maximal key. *)
Lemma py_max_spec (l : list json) :
  l <> [] ->
  (forall x, In x l -> exists s, f x = Some s) ->
  exists i r sr, Matcher.py_max f l = Some r /\ nth_error l i = Some r /\
    f r = Some sr /\
    (forall j x s, nth_error l j = Some x -> f x = Some s -> s <= sr) /\
    (forall j x s, (j < i)%nat -> nth_error l j = Some x -> f x = Some s -> s < sr).
Proof.
  destruct l as [|b l]; intros Hne Hall; [congruence|].
  destruct (Hall b (or_introl eq_refl)) as [sb Hb].
  assert (Hl : forall y, In y l -> exists s, f y = Some s)
    by (intros y Hy; apply Hall; right; exact Hy).
  simpl. rewrite Hb.
  destruct (max_from_spec l b sb Hl)
    as (r & sr & Hr & [(-> & -> & Hle)|(i & Hi & Hfr & Hgt & Hle & Hstr)]).
  - exists 0%nat, b, sb. repeat split; try assumption.
    + intros [|j] y s Hj Hy; simpl in Hj.
      * injection Hj as <-. rewrite Hb in Hy. injection Hy as <-. lia.
      * exact (Hle j y s Hj Hy).
    + intros j ? ? Hj. lia.
  - exists (S i), r, sr. repeat split; try assumption.
    + intros [|j] y s Hj Hy; simpl in Hj.
      * injection Hj as <-. rewrite Hb in Hy. injection Hy as <-. lia.
      * exact (Hle j y s Hj Hy).
    + intros [|j] y s Hji Hj Hy; simpl in Hj.
      * injection Hj as <-. rewrite Hb in Hy. injection Hy as <-. lia.
      * apply (Hstr j y s); [lia|assumption|assumption].
Qed.

End StableMax.

(** ** Selection of the winning candidate *)

Lemma score_some_obj (tl al : string) (x : json) (s : Z) :
  Matcher.score tl al x = Some s -> exists d, x = JObj d.
Proof. destruct x; simpl; try discriminate. intros _. eexists; reflexivity. Qed.

(** C2 (amended): on a non-empty candidate list on which scoring does not
    raise, [_ol_best_match] keeps the first candidate of maximal score and
    returns its fields: the trimmed [str()] of a truthy cover id, the
    trimmed [str()] of the first ISBN and of the first edition key when
    those fields are non-empty lists, the [str()] of the first-publish
    year when it is a Python int (a JSON boolean included), each empty
    otherwise, and the cover URL built from the three ids. *)
Theorem best_match_stable_max (net : endpoint) (title author : string)
    (data : list (string * json)) (l : list json) :
  let t := Py.strip title in
  let a := Py.strip author in
  Py.is_empty t = false ->
  net (Matcher.query_url t a) = Some (JObj data) ->
  Json.get data "docs" = JArr l ->
  l <> [] ->
  (forall x, In x l -> exists s, Matcher.score (Py.lower t) (Py.lower a) x = Some s) ->
  exists i best sb,
    nth_error l i = Some (JObj best) /\
    Matcher.score (Py.lower t) (Py.lower a) (JObj best) = Some sb /\
    (forall j x s, nth_error l j = Some x ->
       Matcher.score (Py.lower t) (Py.lower a) x = Some s -> s <= sb) /\
    (forall j x s, (j < i)%nat -> nth_error l j = Some x ->
       Matcher.score (Py.lower t) (Py.lower a) x = Some s -> s < sb) /\
    let cover_i := Py.strip (Json.str_or_empty (Json.get best "cover_i")) in
    let isbn := match Json.get best "isbn" with
                | JArr (x :: _) => Py.strip (Json.str_or_empty x) | _ => "" end in
    let olid := match Json.get best "edition_key" with
                | JArr (x :: _) => Py.strip (Json.str_or_empty x) | _ => "" end in
    let year := match Json.get best "first_publish_year" with
                | JInt z => Py.str_int z
                | JBool true => "True"
                | JBool false => "False"
                | _ => "" end in
    Matcher._ol_best_match net title author =
      ([Matcher.query_url t a],
       Ret (Some (mkMeta (_ol_cover_url cover_i isbn olid) cover_i isbn olid year))).
Proof.
  intros t a Ht Hnet Hdocs Hne Hall.
  destruct (py_max_spec _ l Hne Hall) as (i & r & sr & Hmax & Hi & Hr & Hle & Hlt).
  destruct (score_some_obj _ _ _ _ Hr) as [best ->].
  exists i, best, sr. repeat split; try assumption.
  unfold Matcher._ol_best_match. fold t a. rewrite Ht, Hnet, Hdocs.
  destruct l as [|y l']; [congruence|]. simpl Json.truthy. cbv iota beta.
  rewrite Hmax. unfold Matcher.extract, Matcher.first_of_list, Matcher.year_of.
  f_equal. f_equal. f_equal.
  destruct (Json.get best "first_publish_year") as [| [|] | | | |]; reflexivity.
Qed.

Lemma best_match_stable_max_witness :
  exists i best sb,
    nth_error [doc_1984; doc_1984b] i = Some (JObj best) /\
    Matcher.score "1984" "george orwell" (JObj best) = Some sb.
Proof.
  edestruct (best_match_stable_max
    (fun _ => Some (JObj [("docs", JArr [doc_1984; doc_1984b])]))
    "1984" "George Orwell" [("docs", JArr [doc_1984; doc_1984b])]
    [doc_1984; doc_1984b]) as (i & best & sb & H1 & H2 & _).
  - reflexivity.
  - reflexivity.
  - reflexivity.
  - discriminate.
  - intros x [<-|[<-|[]]]; eexists; reflexivity.
  - exists i, best, sb. split; assumption.
Defined.

(** C2 (counterexample): a malformed cover id (the JSON value [true]) is
    not turned into an empty field: it is stringified to ["True"] and the
    cover URL is built from it. *)
Lemma best_match_malformed_cover_id :
  snd (Matcher._ol_best_match (fun _ => Some cover_true_body) "Dune" "") =
  Ret (Some (mkMeta "https://covers.openlibrary.org/b/id/True-L.jpg" "True" "" "" "")).
Proof. reflexivity. Qed.

(** ** The additive score *)

Lemma lower_is_empty (s : string) : Py.is_empty (Py.lower s) = Py.is_empty s.
Proof. destruct s; reflexivity. Qed.

Ltac split_ifs :=
  repeat match goal with
  | |- context [if ?b then _ else _] =>
      let E := fresh "E" in destruct b eqn:E
  | H : context [if ?b then _ else _] |- _ =>
      let E := fresh "E" in destruct b eqn:E
  end.

Lemma first_author_lowered (d : list (string * json)) (fa : string) :
  first_author_raw d = Some fa ->
  (match Json.get d "author_name" with
   | JArr (a0 :: _) => option_map (fun x => Py.lower (Py.strip x)) (Json.or_empty_str a0)
   | _ => Some "" end) = Some (Py.lower (Py.strip fa)).
Proof.
  unfold first_author_raw. intros Hfa.
  destruct (Json.get d "author_name") as [| | | |[|a0 ?]|]; try (injection Hfa as <-; reflexivity).
  simpl. rewrite Hfa. reflexivity.
Qed.

(** C9 (amended): every score lies in [0, 113]; 113 is reached exactly
    when the trimmed, lowercased titles are equal, an author is supplied
    and equals the trimmed, lowercased first listed author, the cover id
    is truthy and the ISBN field is a non-empty list. *)
Theorem score_range (title author : string) (doc : json) (s : Z) :
  Matcher.score (Py.lower (Py.strip title)) (Py.lower (Py.strip author)) doc = Some s ->
  0 <= s <= 113 /\
  (s = 113 <->
   exists d raw fa,
     doc = JObj d /\
     Json.or_empty_str (Json.get d "title") = Some raw /\
     Py.lower (Py.strip raw) = Py.lower (Py.strip title) /\
     Py.is_empty (Py.strip author) = false /\
     first_author_raw d = Some fa /\
     Py.lower (Py.strip fa) = Py.lower (Py.strip author) /\
     Json.truthy (Json.get d "cover_i") = true /\
     exists x r, Json.get d "isbn" = JArr (x :: r)).
Proof.
  destruct doc as [| | | | |d]; simpl; try discriminate.
  destruct (Json.or_empty_str (Json.get d "title")) as [raw|] eqn:Hraw; [|discriminate].
  destruct (first_author_raw d) as [fa|] eqn:Hfa.
  2:{ unfold first_author_raw in Hfa.
      destruct (Json.get d "author_name") as [| | | |[|a0 ?]|]; try discriminate.
      simpl. rewrite Hfa. discriminate. }
  pose proof (first_author_lowered d fa Hfa) as Hfa'.
  rewrite Hfa'. intros Hs. injection Hs as <-.
  set (isbn_bonus := match Json.get d "isbn" with JArr (_ :: _) => 3 | _ => 0 end).
  assert (Hib : (isbn_bonus = 3 /\ exists x r, Json.get d "isbn" = JArr (x :: r)) \/
                (isbn_bonus = 0 /\ forall x r, Json.get d "isbn" <> JArr (x :: r))).
  { unfold isbn_bonus. destruct (Json.get d "isbn") as [| | | |[|x r]|];
      try (right; split; [reflexivity|intros ? ? ?; discriminate]).
    left. split; [reflexivity|]. exists x, r. reflexivity. }
  split_ifs;
  repeat match goal with
  | H : String.eqb _ _ = true |- _ => apply String.eqb_eq in H
  | H : String.eqb _ _ = false |- _ => apply String.eqb_neq in H
  | H : (_ && _)%bool = true |- _ => apply andb_prop in H; destruct H
  | H : negb _ = true |- _ => apply negb_true_iff in H
  end;
  (split; [destruct Hib as [[-> _]|[-> _]]; lia|]);
  (split; [intros H113|
     intros (d' & raw' & fa' & Heq & Hraw' & Ht & Ha & Hfa2 & Hau & Hc & Hi);
     injection Heq as <-; rewrite Hraw in Hraw'; injection Hraw' as <-;
     rewrite Hfa in Hfa2; injection Hfa2 as <-;
     destruct Hib as [[-> _]|[-> Hn]];
       [|destruct Hi as (x & r & Hi); exfalso; exact (Hn x r Hi)]]);
  try (destruct Hib as [[-> _]|[-> _]]; lia);
  try congruence.
  - (* all four maximal *)
    destruct Hib as [[_ Hi]|[-> _]]; [|lia].
    exists d, raw, fa. rewrite lower_is_empty in *. repeat split; assumption.
  - reflexivity.
  - (* author supplied and equal, so both sides are non-empty *)
    exfalso. rewrite !lower_is_empty, Ha in E0. cbn [andb negb] in E0.
    rewrite <- (lower_is_empty (Py.strip fa)), Hau, lower_is_empty, Ha in E0.
    discriminate.
Qed.

Lemma score_range_witness :
  0 <= 113 <= 113 /\ (113 = 113 <->
   exists d raw fa,
     padded_title_doc = JObj d /\
     Json.or_empty_str (Json.get d "title") = Some raw /\
     Py.lower (Py.strip raw) = Py.lower (Py.strip "Dune") /\
     Py.is_empty (Py.strip "Frank Herbert") = false /\
     first_author_raw d = Some fa /\
     Py.lower (Py.strip fa) = Py.lower (Py.strip "Frank Herbert") /\
     Json.truthy (Json.get d "cover_i") = true /\
     exists x r, Json.get d "isbn" = JArr (x :: r)).
Proof. apply (score_range "Dune" "Frank Herbert" padded_title_doc 113). reflexivity. Defined.

(** C9 (counterexample): a candidate whose title differs from the query
    title by a trailing space (so the titles are not equal, even ignoring
    case) still scores the maximum 113. *)
Lemma score_max_with_padded_title :
  Matcher.score (Py.lower (Py.strip "Dune")) (Py.lower (Py.strip "Frank Herbert"))
    padded_title_doc = Some 113 /\
  Py.lower (Claimed.text (JStr "Dune ")) <> Py.lower "Dune".
Proof. split; [reflexivity|discriminate]. Qed.

(** C1 (counterexample): a candidate listing one author, the empty
    string, gets no author bonus, while the rule as claimed gives +25
    (the empty string is a substring of the supplied author). *)
Lemma score_empty_first_author :
  Matcher.score (Py.lower (Py.strip "Dune")) (Py.lower (Py.strip "Frank Herbert"))
    empty_author_doc = Some 50 /\
  Claimed.score_C1 "Dune" "Frank Herbert" empty_author_doc = 75.
Proof. split; reflexivity. Qed.

(** C1 (amended): for a non-blank query title and a candidate object
    whose title and first listed author can be read as strings, the score
    is the sum of the title, author, cover and ISBN bonuses of the amended
    rule, and nothing else. *)
Theorem score_additive (title author : string) (d : list (string * json))
    (raw fa : string) :
  Py.is_empty (Py.strip title) = false ->
  Json.or_empty_str (Json.get d "title") = Some raw ->
  first_author_raw d = Some fa ->
  Matcher.score (Py.lower (Py.strip title)) (Py.lower (Py.strip author)) (JObj d) =
  Some (Amended.title_bonus title raw + Amended.author_bonus author fa +
        Amended.cover_bonus d + Amended.isbn_bonus d).
Proof.
  intros Ht Hraw Hfa. simpl. rewrite Hraw, (first_author_lowered d fa Hfa).
  unfold Amended.title_bonus, Amended.author_bonus, Amended.cover_bonus,
    Amended.isbn_bonus.
  rewrite lower_is_empty, Ht. cbn [negb andb].
  destruct (Py.is_empty (Py.lower (Py.strip author))), (Py.is_empty (Py.lower (Py.strip fa)));
    reflexivity.
Qed.

Lemma score_additive_witness :
  Matcher.score (Py.lower (Py.strip "Dune")) (Py.lower (Py.strip "Frank Herbert"))
    padded_title_doc = Some (50 + 50 + 10 + 3).
Proof.
  apply (score_additive "Dune" "Frank Herbert"
           [("title", JStr "Dune "); ("author_name", JArr [JStr "Frank Herbert"]);
            ("cover_i", JInt 44); ("isbn", JArr [JStr "9780441172719"])]
           "Dune " "Frank Herbert"); reflexivity.
Defined.

(** ** Framing of the seeding loop *)

Fixpoint adds (ev : list event) : list book :=
  match ev with
  | [] => []
  | EvAdd b :: r => b :: adds r
  | _ :: r => adds r
  end.

Lemma adds_app (e1 e2 : list event) : adds (e1 ++ e2) = (adds e1 ++ adds e2)%list.
Proof. induction e1 as [|[] e1 IH]; simpl; rewrite ?IH; reflexivity. Qed.

Lemma adds_http (urls : list string) : adds (map EvHttp urls) = [].
Proof. induction urls; simpl; auto. Qed.

(** [w'] extends [w] without committing: the committed rows are unchanged,
    and the new session rows are exactly the rows added by the new events. *)
Definition grows (w w' : world) : Prop :=
  committed w' = committed w /\
  exists ev, trace w' = (trace w ++ ev)%list /\ pending w' = (pending w ++ adds ev)%list /\
             ~ In EvCommit ev.

Lemma grows_refl (w : world) : grows w w.
Proof. split; [reflexivity|]. exists []. rewrite !app_nil_r. repeat split. intros []. Qed.

Lemma grows_trans (w1 w2 w3 : world) : grows w1 w2 -> grows w2 w3 -> grows w1 w3.
Proof.
  intros [Hc1 (e1 & Ht1 & Hp1 & Hn1)] [Hc2 (e2 & Ht2 & Hp2 & Hn2)].
  split; [congruence|]. exists (e1 ++ e2)%list.
  rewrite Ht2, Ht1, Hp2, Hp1, adds_app, !app_assoc. repeat split.
  intros Hin. apply in_app_or in Hin. tauto.
Qed.

Section Frame.

Variable net : endpoint.

Lemma seed_item_grows (it : item) (w w' : world) (r : result unit) :
  seed_item net it w = (r, w') -> grows w w'.
Proof.
  destruct it as [[t a] g]. unfold seed_item.
  destruct (Py.is_empty (Py.strip t) || Py.is_empty (Py.strip a)).
  { intros H. injection H as _ <-. apply grows_refl. }
  unfold bind, find, ret.
  destruct (existsb _ _).
  { intros H. injection H as _ <-. apply grows_refl. }
  unfold best_match.
  destruct (Matcher._ol_best_match net (Py.strip t) (Py.strip a)) as [urls [m|]].
  - unfold add. intros H. injection H as _ <-.
    split; [reflexivity|]. eexists. simpl. split; [rewrite <- app_assoc; reflexivity|].
    rewrite adds_app, adds_http. split; [reflexivity|].
    intros Hin. apply in_app_or in Hin as [Hin|[Hin|[]]]; [|discriminate].
    apply in_map_iff in Hin as (? & ? & _). discriminate.
  - intros H. injection H as _ <-.
    split; [reflexivity|]. exists (map EvHttp urls). simpl.
    rewrite adds_http, app_nil_r. repeat split.
    intros Hin. apply in_map_iff in Hin as (? & ? & _). discriminate.
Qed.

Lemma seed_items_grows (l : list item) : forall w w' r,
  seed_items net l w = (r, w') -> grows w w'.
Proof.
  induction l as [|it l IH]; simpl; intros w w' r H.
  - injection H as _ <-. apply grows_refl.
  - unfold bind in H. destruct (seed_item net it w) as [[]w1] eqn:E.
    + eapply grows_trans; [eapply seed_item_grows; exact E|]. eapply IH; exact H.
    + injection H as _ <-. eapply seed_item_grows; exact E.
Qed.

Lemma seed_shelves_grows (ss : shelves) : forall w w' r,
  seed_shelves net ss w = (r, w') -> grows w w'.
Proof.
  induction ss as [|[nm items] ss IH]; simpl; intros w w' r H.
  - injection H as _ <-. apply grows_refl.
  - unfold bind in H. destruct (seed_items net items w) as [[]w1] eqn:E.
    + eapply grows_trans; [eapply seed_items_grows; exact E|]. eapply IH; exact H.
    + injection H as _ <-. eapply seed_items_grows; exact E.
Qed.

End Frame.


Section Skip.

Variable net : endpoint.

Lemma seed_items_app (l1 l2 : list item) (w : world) :
  seed_items net (l1 ++ l2) w = bind (seed_items net l1) (fun _ => seed_items net l2) w.
Proof.
  revert w. induction l1 as [|it l1 IH]; intros w; simpl; unfold bind.
  - reflexivity.
  - destruct (seed_item net it w) as [[]w1]; [apply IH|reflexivity].
Qed.

Lemma seed_shelves_concat (ss : shelves) (w : world) :
  seed_shelves net ss w = seed_items net (concat (map snd ss)) w.
Proof.
  revert w. induction ss as [|[nm items] ss IH]; intros w; simpl.
  - reflexivity.
  - rewrite seed_items_app. unfold bind.
    destruct (seed_items net items w) as [[]w1]; [apply IH|reflexivity].
Qed.

(** An item whose step leaves every world with the same committed rows
    untouched can be dropped from the pass. *)
Lemma seed_items_skip (it : item) (C : list book) (l1 l2 : list item) :
  (forall w', committed w' = C -> seed_item net it w' = (Ret tt, w')) ->
  forall w, committed w = C ->
  seed_items net (l1 ++ it :: l2) w = seed_items net (l1 ++ l2) w.
Proof.
  intros Hskip. induction l1 as [|x l1 IH]; intros w Hw; simpl; unfold bind.
  - rewrite (Hskip w Hw). reflexivity.
  - destruct (seed_item net x w) as [[]w1] eqn:E; [|reflexivity].
    apply IH. destruct (seed_item_grows net x w w1 _ E) as [Hc _]. congruence.
Qed.

Lemma seed_shelves_skip (it : item) (C : list book) (s1 s2 : shelves) (nm : string)
    (i1 i2 : list item) :
  (forall w', committed w' = C -> seed_item net it w' = (Ret tt, w')) ->
  forall w, committed w = C ->
  seed_shelves net (s1 ++ (nm, i1 ++ it :: i2) :: s2)%list w =
  seed_shelves net (s1 ++ (nm, i1 ++ i2) :: s2)%list w.
Proof.
  intros Hskip. induction s1 as [|[nm' items] s1 IH]; intros w Hw; simpl; unfold bind.
  - rewrite (seed_items_skip it C i1 i2 Hskip w Hw). reflexivity.
  - destruct (seed_items net items w) as [[]w1] eqn:E; [|reflexivity].
    apply IH. destruct (seed_items_grows net items w w1 _ E) as [Hc _]. congruence.
Qed.

Lemma ensure_skip (it : item) (s1 s2 : shelves) (nm : string) (i1 i2 : list item)
    (min_books : Z) (w : world) :
  (forall w', committed w' = committed w -> seed_item net it w' = (Ret tt, w')) ->
  _ensure_seeded_curated net (s1 ++ (nm, i1 ++ it :: i2) :: s2)%list min_books w =
  _ensure_seeded_curated net (s1 ++ (nm, i1 ++ i2) :: s2)%list min_books w.
Proof.
  intros Hskip. unfold _ensure_seeded_curated, bind, count, ret.
  destruct (min_books <=? _); [reflexivity|].
  rewrite (seed_shelves_skip it (committed w) s1 s2 nm i1 i2 Hskip w eq_refl).
  reflexivity.
Qed.

Lemma seed_item_blank (t a g : string) (w : world) :
  (Py.is_empty (Py.strip t) || Py.is_empty (Py.strip a))%bool = true ->
  seed_item net (t, a, g) w = (Ret tt, w).
Proof. intros H. unfold seed_item. rewrite H. reflexivity. Qed.

Lemma seed_item_present (t a g : string) (b : book) (w : world) :
  Py.strip t = t -> Py.strip a = a ->
  In b (committed w) -> b_title b = t -> b_author b = a ->
  seed_item net (t, a, g) w = (Ret tt, w).
Proof.
  intros Ht Ha Hb Hbt Hba. unfold seed_item. rewrite Ht, Ha.
  destruct (Py.is_empty t || Py.is_empty a)%bool; [reflexivity|].
  unfold bind, find, ret.
  replace (existsb (same_key t a) (visible w)) with true; [reflexivity|].
  symmetry. apply existsb_exists. exists b. split.
  - unfold visible. apply in_or_app. left. exact Hb.
  - unfold same_key. apply andb_true_intro. split; apply String.eqb_eq; assumption.
Qed.

End Skip.

(** ** The no-duplicate invariant *)

Definition key (b : book) : string * string := (b_title b, b_author b).

Section NoDups.

Variable net : endpoint.

Lemma nodup_snoc {A} (l : list A) (x : A) :
  NoDup l -> ~ In x l -> NoDup (l ++ [x]).
Proof.
  intros Hl Hx. apply (Permutation_NoDup (Permutation_cons_append l x)).
  constructor; assumption.
Qed.

Lemma seed_item_nodup (it : item) (w w' : world) (r : result unit) :
  NoDup (map key (visible w)) -> seed_item net it w = (r, w') ->
  NoDup (map key (visible w')).
Proof.
  destruct it as [[t a] g]. unfold seed_item. intros Hnd.
  destruct (Py.is_empty (Py.strip t) || Py.is_empty (Py.strip a))%bool.
  { intros H. injection H as _ <-. exact Hnd. }
  unfold bind, find, ret.
  destruct (existsb (same_key (Py.strip t) (Py.strip a)) (visible w)) eqn:Hex.
  { intros H. injection H as _ <-. exact Hnd. }
  unfold best_match.
  destruct (Matcher._ol_best_match net (Py.strip t) (Py.strip a)) as [urls [m|]].
  - unfold add. intros H. injection H as _ <-. unfold visible in *. simpl.
    rewrite app_assoc, map_app. apply nodup_snoc; [exact Hnd|].
    intros Hin. apply in_map_iff in Hin as (b & Hkb & Hb).
    assert (Hin' : existsb (same_key (Py.strip t) (Py.strip a)) (committed w ++ pending w) = true).
    { apply existsb_exists. exists b. split; [exact Hb|].
      unfold key in Hkb. simpl in Hkb. injection Hkb as H1 H2.
      unfold same_key. apply andb_true_intro. split; apply String.eqb_eq; assumption. }
    unfold visible in Hex. congruence.
  - intros H. injection H as _ <-. exact Hnd.
Qed.

Lemma seed_items_nodup (l : list item) : forall w w' r,
  NoDup (map key (visible w)) -> seed_items net l w = (r, w') ->
  NoDup (map key (visible w')).
Proof.
  induction l as [|it l IH]; simpl; intros w w' r Hnd H.
  - injection H as _ <-. exact Hnd.
  - unfold bind in H. destruct (seed_item net it w) as [[]w1] eqn:E.
    + eapply IH; [eapply seed_item_nodup; [exact Hnd|exact E]|exact H].
    + injection H as _ <-. eapply seed_item_nodup; [exact Hnd|exact E].
Qed.

Lemma ensure_nodup (ss : shelves) (min_books : Z) (w w' : world) (r : result unit) :
  NoDup (map key (visible w)) ->
  _ensure_seeded_curated net ss min_books w = (r, w') ->
  NoDup (map key (visible w')).
Proof.
  intros Hnd. unfold _ensure_seeded_curated, bind, count, ret.
  destruct (min_books <=? _).
  { intros H. injection H as _ <-. exact Hnd. }
  rewrite seed_shelves_concat.
  destruct (seed_items net (concat (map snd ss)) w) as [[]w1] eqn:E.
  - unfold commit. intros H. injection H as _ <-.
    pose proof (seed_items_nodup _ w w1 _ Hnd E) as H1.
    unfold visible in *. simpl. rewrite app_nil_r. exact H1.
  - intros H. injection H as _ <-. eapply seed_items_nodup; [exact Hnd|exact E].
Qed.

End NoDups.

(** ** Seeding: the claims *)

(** C5: [_ensure_seeded_curated] is a no-op when the catalog already has
    [min_books] rows; an already-trimmed curated item whose
    [(title, author)] is a committed row is skipped without any effect
    (the pass is the pass without that item); and two successive passes
    never create two rows with the same [(title, author)]. *)
Theorem ensure_seeded_idempotent (net : endpoint) :
  (forall ss min_books w,
     min_books <= Z.of_nat (length (visible w)) ->
     _ensure_seeded_curated net ss min_books w = (Ret tt, w)) /\
  (forall s1 s2 nm i1 i2 t a g b min_books w,
     Py.strip t = t -> Py.strip a = a ->
     In b (committed w) -> b_title b = t -> b_author b = a ->
     _ensure_seeded_curated net (s1 ++ (nm, i1 ++ (t, a, g) :: i2) :: s2)%list min_books w =
     _ensure_seeded_curated net (s1 ++ (nm, i1 ++ i2) :: s2)%list min_books w) /\
  (forall ss min_books w,
     NoDup (map key (visible w)) ->
     let w1 := snd (_ensure_seeded_curated net ss min_books w) in
     let w2 := snd (_ensure_seeded_curated net ss min_books w1) in
     NoDup (map key (visible w2))).
Proof.
  split; [|split].
  - intros ss min_books w H. unfold _ensure_seeded_curated, bind, count.
    replace (min_books <=? Z.of_nat (length (visible w))) with true; [reflexivity|].
    symmetry. apply Z.leb_le. exact H.
  - intros s1 s2 nm i1 i2 t a g b min_books w Ht Ha Hb Hbt Hba.
    apply ensure_skip. intros w' Hw'.
    apply (seed_item_present net t a g b w' Ht Ha); [rewrite Hw'; exact Hb|exact Hbt|exact Hba].
  - intros ss min_books w Hnd w1 w2.
    unfold w2, w1.
    destruct (_ensure_seeded_curated net ss min_books w) as [r1 v1] eqn:E1. simpl.
    destruct (_ensure_seeded_curated net ss min_books v1) as [r2 v2] eqn:E2. simpl.
    eapply ensure_nodup; [eapply ensure_nodup; [exact Hnd|exact E1]|exact E2].
Qed.

Lemma ensure_seeded_idempotent_witness :
  _ensure_seeded_curated no_net CURATED_SHELVES 1 (mkWorld [austen] [] []) =
    (Ret tt, mkWorld [austen] [] []) /\
  _ensure_seeded_curated no_net
    ([] ++ ("Classics", [] ++ ("Pride and Prejudice", "Jane Austen", "Classics") ::
       [("Emma", "Jane Austen", "Classics")]) :: [])%list 5 (mkWorld [austen] [] []) =
  _ensure_seeded_curated no_net
    ([] ++ ("Classics", [] ++ [("Emma", "Jane Austen", "Classics")]) :: [])%list 5
    (mkWorld [austen] [] []) /\
  NoDup (map key (visible (snd (_ensure_seeded_curated no_net CURATED_SHELVES 250
    (snd (_ensure_seeded_curated no_net CURATED_SHELVES 250 (mkWorld [austen] [] []))))))).
Proof.
  destruct (ensure_seeded_idempotent no_net) as (Ha & Hb & Hc). split; [|split].
  - apply Ha. simpl. lia.
  - apply (Hb [] [] "Classics" [] [("Emma", "Jane Austen", "Classics")]
             "Pride and Prejudice" "Jane Austen" "Classics" austen 5 (mkWorld [austen] [] []));
      try reflexivity. left. reflexivity.
  - apply (Hc CURATED_SHELVES 250 (mkWorld [austen] [] [])).
    simpl. constructor; [intros []|constructor].
Defined.

(** C6: a pass run at startup ends with no uncommitted rows; if it raises,
    no commit happened and the committed rows are those before the pass;
    otherwise it either did nothing or ended with exactly one commit, as
    its last effect, which persisted all the rows added during the pass. *)
Theorem seeding_single_batch_commit (net : endpoint) (ss : shelves) (min_books : Z)
    (w : world) :
  pending w = [] ->
  let '(r, w') := in_app_context (_ensure_seeded_curated net ss min_books) w in
  pending w' = [] /\
  exists ev, trace w' = (trace w ++ ev)%list /\
    ((r = Raise /\ committed w' = committed w /\ ~ In EvCommit ev) \/
     (r = Ret tt /\ ev = [] /\ committed w' = committed w) \/
     (r = Ret tt /\ exists ev0, ev = (ev0 ++ [EvCommit])%list /\ ~ In EvCommit ev0 /\
        committed w' = (committed w ++ adds ev0)%list)).
Proof.
  intros Hp. unfold in_app_context, _ensure_seeded_curated, bind, count, ret.
  destruct (min_books <=? _).
  { simpl. split; [reflexivity|]. exists []. rewrite app_nil_r.
    split; [reflexivity|]. right. left. repeat split. }
  destruct (seed_shelves net ss w) as [[]w1] eqn:E;
    destruct (seed_shelves_grows net ss w w1 _ E) as [Hc (ev & Ht & Hp1 & Hn)].
  - unfold commit. simpl. split; [reflexivity|].
    exists (ev ++ [EvCommit])%list. split; [rewrite Ht, app_assoc; reflexivity|].
    right. right. split; [reflexivity|]. exists ev. repeat split; try assumption.
    rewrite Hc, Hp1, Hp. reflexivity.
  - simpl. split; [reflexivity|]. exists ev. split; [exact Ht|].
    left. repeat split; assumption.
Qed.

Lemma seeding_single_batch_commit_witness :
  pending (mkWorld [] [] []) = [] /\
  let '(r, w') := in_app_context (_ensure_seeded_curated no_net two_items 1) (mkWorld [] [] []) in
  pending w' = [] /\
  exists ev, trace w' = (trace (mkWorld [] [] []) ++ ev)%list /\
    ((r = Raise /\ committed w' = committed (mkWorld [] [] []) /\ ~ In EvCommit ev) \/
     (r = Ret tt /\ ev = [] /\ committed w' = committed (mkWorld [] [] [])) \/
     (r = Ret tt /\ exists ev0, ev = (ev0 ++ [EvCommit])%list /\ ~ In EvCommit ev0 /\
        committed w' = (committed (mkWorld [] [] []) ++ adds ev0)%list)).
Proof.
  split; [reflexivity|].
  apply (seeding_single_batch_commit no_net two_items 1 (mkWorld [] [] [])). reflexivity.
Defined.

(** C7 (counterexample): with [min_books = 1] and an empty catalog, the
    first item brings the count to 1, and the second item is still looked
    up and inserted. *)
Lemma seeding_does_not_stop_at_minimum :
  let w := snd (_ensure_seeded_curated no_net two_items 1 (mkWorld [] [] [])) in
  length (committed w) = 2%nat /\ length (filter is_http (trace w)) = 2%nat.
Proof. split; reflexivity. Qed.

(** C7 (amended): once triggered (fewer rows than [min_books] at the
    start), a pass runs every curated item in shelf order and then commits;
    the threshold is not looked at again. *)
Theorem ensure_processes_whole_list (net : endpoint) (ss : shelves) (min_books : Z)
    (w : world) :
  Z.of_nat (length (visible w)) < min_books ->
  _ensure_seeded_curated net ss min_books w =
  bind (seed_items net (concat (map snd ss))) (fun _ => commit) w.
Proof.
  intros H. unfold _ensure_seeded_curated. unfold bind at 1. unfold count.
  replace (min_books <=? Z.of_nat (length (visible w))) with false.
  - unfold bind. rewrite seed_shelves_concat. reflexivity.
  - symmetry. apply Z.leb_gt. exact H.
Qed.

Lemma ensure_processes_whole_list_witness :
  _ensure_seeded_curated no_net two_items 1 (mkWorld [] [] []) =
  bind (seed_items no_net (concat (map snd two_items))) (fun _ => commit) (mkWorld [] [] []).
Proof. apply ensure_processes_whole_list. simpl. lia. Defined.

(** C8 (failing input): a curated item with the whitespace-only genre
    ["  "] is stored with the empty genre, not ["Other"]:
    [(genre or "Other").strip()] applies the default before trimming. *)
Theorem seeded_blank_genre_is_empty :
  committed (snd (_ensure_seeded_curated no_net blank_genre_shelf 1 (mkWorld [] [] []))) =
  [mkBook "Dune" "Frank Herbert" "" "" PLACEHOLDER_COVER "" "" ""].
Proof. reflexivity. Qed.

(** C10: a curated item whose title or author is blank after trimming is
    skipped: the pass is exactly the pass without that item. *)
Theorem blank_items_skipped (net : endpoint) (s1 s2 : shelves) (nm : string)
    (i1 i2 : list item) (t a g : string) (min_books : Z) (w : world) :
  (Py.is_empty (Py.strip t) || Py.is_empty (Py.strip a))%bool = true ->
  _ensure_seeded_curated net (s1 ++ (nm, i1 ++ (t, a, g) :: i2) :: s2)%list min_books w =
  _ensure_seeded_curated net (s1 ++ (nm, i1 ++ i2) :: s2)%list min_books w.
Proof.
  intros H. apply ensure_skip. intros w' _. apply seed_item_blank. exact H.
Qed.

Lemma blank_items_skipped_witness :
  _ensure_seeded_curated no_net
    ([] ++ ("Shelf", [("Emma", "Jane Austen", "Classics")] ++ ("   ", "Nobody", "Other") :: [])
      :: [])%list 5 (mkWorld [] [] []) =
  _ensure_seeded_curated no_net
    ([] ++ ("Shelf", [("Emma", "Jane Austen", "Classics")] ++ []) :: [])%list 5
    (mkWorld [] [] []).
Proof. apply blank_items_skipped. reflexivity. Defined.

(** Every row queued by a pass has a non-empty cover: the resolved URL,
    or [PLACEHOLDER_COVER] when none was resolved. *)
Lemma seed_items_cover_nonempty (net : endpoint) (l : list item) : forall w w' r,
  Forall (fun b => b_cover b <> "") (pending w) ->
  seed_items net l w = (r, w') ->
  Forall (fun b => b_cover b <> "") (pending w').
Proof.
  assert (Hitem : forall it w w' r,
            Forall (fun b => b_cover b <> "") (pending w) ->
            seed_item net it w = (r, w') ->
            Forall (fun b => b_cover b <> "") (pending w')).
  { intros [[t a] g] w w' r Hf. unfold seed_item.
    destruct (Py.is_empty (Py.strip t) || Py.is_empty (Py.strip a))%bool.
    { intros H. injection H as _ <-. exact Hf. }
    unfold bind, find, ret. destruct (existsb _ _).
    { intros H. injection H as _ <-. exact Hf. }
    unfold best_match.
    destruct (Matcher._ol_best_match net (Py.strip t) (Py.strip a)) as [urls [m|]].
    - unfold add. intros H. injection H as _ <-. simpl.
      apply Forall_app. split; [exact Hf|]. constructor; [|constructor]. simpl.
      destruct (Py.is_empty (Py.strip (meta_get m m_cover))) eqn:E.
      + discriminate.
      + intros Hc. rewrite Hc in E. discriminate.
    - intros H. injection H as _ <-. exact Hf. }
  induction l as [|it l IH]; simpl; intros w w' r Hf H.
  - injection H as _ <-. exact Hf.
  - unfold bind in H. destruct (seed_item net it w) as [[]w1] eqn:E.
    + eapply IH; [eapply Hitem; [exact Hf|exact E]|exact H].
    + injection H as _ <-. eapply Hitem; [exact Hf|exact E].
Qed.

(** ** [_time_ago] *)

Ltac ltb_facts :=
  repeat match goal with
  | H : (_ <? _) = true |- _ => apply Z.ltb_lt in H
  | H : (_ <? _) = false |- _ => apply Z.ltb_ge in H
  end.

(** Anything less than a minute old, and any timestamp in the future,
    is shown as "just now"; a missing timestamp as the empty string. *)
Theorem time_ago_recent (now dt : Z) :
  now - dt < 60000000 ->
  _time_ago now None = "" /\ _time_ago now (Some dt) = "just now".
Proof.
  intros H. split; [reflexivity|]. unfold _time_ago.
  replace (Z.quot (now - dt) 1000000 <? 60) with true; [reflexivity|].
  symmetry. apply Z.ltb_lt.
  destruct (Z.le_gt_cases 0 (now - dt)).
  - rewrite Z.quot_div_nonneg by lia. apply Z.div_lt_upper_bound; lia.
  - assert (Z.quot (now - dt) 1000000 <= 0); [|lia].
    apply Z.quot_le_upper_bound; lia.
Qed.

Lemma time_ago_recent_witness :
  _time_ago 100000000 None = "" /\ _time_ago 100000000 (Some 300000000) = "just now".
Proof. apply time_ago_recent. lia. Defined.

(** Between 360 and 365 days the month count has reached 12 but the year
    count is still 0, so the label is "0y ago". *)
Theorem time_ago_zero_years (now dt : Z) :
  360 * 86400 * 1000000 <= now - dt < 365 * 86400 * 1000000 ->
  _time_ago now (Some dt) = "0y ago".
Proof.
  intros H. unfold _time_ago.
  rewrite Z.quot_div_nonneg by lia.
  set (s := (now - dt) / 1000000).
  assert (Hs : 360 * 86400 <= s < 365 * 86400).
  { unfold s. split.
    - apply Z.div_le_lower_bound; lia.
    - apply Z.div_lt_upper_bound; lia. }
  assert (Hd : 360 <= s / 60 / 60 / 24 < 365).
  { rewrite !Z.div_div by lia. split.
    - apply Z.div_le_lower_bound; lia.
    - apply Z.div_lt_upper_bound; lia. }
  set (d := s / 60 / 60 / 24) in *.
  replace (s <? 60) with false by (symmetry; apply Z.ltb_ge; lia).
  replace (s / 60 <? 60) with false
    by (symmetry; apply Z.ltb_ge; apply Z.div_le_lower_bound; lia).
  replace (s / 60 / 60 <? 24) with false
    by (symmetry; apply Z.ltb_ge; rewrite Z.div_div by lia;
        apply Z.div_le_lower_bound; lia).
  replace (d <? 7) with false by (symmetry; apply Z.ltb_ge; lia).
  replace (d / 7 <? 5) with false
    by (symmetry; apply Z.ltb_ge; apply Z.div_le_lower_bound; lia).
  replace (d / 30 <? 12) with false
    by (symmetry; apply Z.ltb_ge; apply Z.div_le_lower_bound; lia).
  replace (d / 365) with 0 by (symmetry; apply Z.div_small; lia).
  reflexivity.
Qed.

Lemma time_ago_zero_years_witness :
  _time_ago (362 * 86400 * 1000000) (Some 0) = "0y ago".
Proof. apply time_ago_zero_years. lia. Defined.

(** ** [get_or_create_book_row] and [add_book] *)

Lemma existsb_same_key_false (t a : string) (l : list book) :
  existsb (same_key t a) l = false -> ~ In (t, a) (map key l).
Proof.
  intros Hex Hin. apply in_map_iff in Hin as (b & Hkb & Hb).
  unfold key in Hkb. injection Hkb as H1 H2.
  assert (existsb (same_key t a) l = true); [|congruence].
  apply existsb_exists. exists b. split; [exact Hb|].
  unfold same_key. apply andb_true_intro. split; apply String.eqb_eq; assumption.
Qed.


Lemma find_app_none {A} (f : A -> bool) (l1 l2 : list A) :
  List.find f l1 = None -> List.find f (l1 ++ l2) = List.find f l2.
Proof.
  induction l1 as [|x l1 IH]; simpl; [reflexivity|].
  destruct (f x); [discriminate|exact IH].
Qed.

(** [get_or_create_book_row] never raises, and calling it a second time
    with the same dict returns the same row and changes nothing: the first
    call either found the row, created and committed it, or refused a dict
    with a blank title or author. *)
Theorem get_or_create_book_row_idempotent (d : dict) (w : world) :
  exists r, fst (get_or_create_book_row d w) = Ret r /\
    get_or_create_book_row d (snd (get_or_create_book_row d w)) =
      (Ret r, snd (get_or_create_book_row d w)).
Proof.
  unfold get_or_create_book_row.
  set (t := Py.strip (get_or d "title" "")).
  set (a := Py.strip (get_or d "author" "")).
  destruct (Py.is_empty t || Py.is_empty a)%bool eqn:Hb.
  { exists None. split; reflexivity. }
  unfold bind, find_first, ret.
  destruct (List.find (same_key t a) (visible w)) as [b|] eqn:Hf.
  { exists (Some b). cbn. rewrite Hf. split; reflexivity. }
  eexists. cbn. split; [reflexivity|].
  unfold visible in *. cbn. rewrite app_nil_r. idtac.
  rewrite app_assoc, (find_app_none _ _ _ Hf). cbn. unfold same_key. cbn. rewrite !String.eqb_refl. reflexivity.
Qed.


Lemma or_str_nonempty (s d : string) : d <> "" -> or_str s d <> "".
Proof.
  unfold or_str, Py.is_empty. destruct (String.eqb s "") eqn:E; [auto|].
  intros _ ->. discriminate.
Qed.

Lemma placeholder_nonempty : PLACEHOLDER_COVER <> "".
Proof. discriminate. Qed.

(** A POST to [add_book] changes the table by at most one row. A blank
    title or author, or a title/author pair already in the table, leaves
    the database as it was. If the Open Library lookup raises nothing is
    added. Otherwise exactly one row is appended and committed: it carries
    the stripped title and author, a key not yet in the table, a non-empty
    genre ("Other" for a blank one) and a non-empty cover. *)
Theorem add_book_post_effect (net : endpoint) (form : dict) (w : world) :
  let t := Py.strip (get_or form "title" "") in
  let a := Py.strip (get_or form "author" "") in
  match add_book_post net form w with
  | (Raise, w') => committed w' = committed w /\ pending w' = pending w
  | (Ret msg, w') =>
      w' = w \/
      (msg = ("Book added!", "add_review") /\
       exists b, committed w' = (visible w ++ [b])%list /\ pending w' = [] /\
         b_title b = t /\ b_author b = a /\
         ~ In (key b) (map key (visible w)) /\
         b_genre b <> "" /\ b_cover b <> "")
  end.
Proof.
  cbv zeta. unfold add_book_post.
  set (t := Py.strip (get_or form "title" "")).
  set (a := Py.strip (get_or form "author" "")).
  destruct (Py.is_empty t || Py.is_empty a)%bool eqn:Hb.
  { left. reflexivity. }
  unfold bind, find, ret.
  destruct (existsb (same_key t a) (visible w)) eqn:Hex.
  { left. reflexivity. }
  unfold best_match.
  destruct (Matcher._ol_best_match net t a) as [urls [m|]].
  - right. split; [reflexivity|]. eexists. unfold visible. cbn.
    rewrite ?app_nil_r, ?app_assoc.
    split; [reflexivity|]. split; [reflexivity|].
    split; [reflexivity|]. split; [reflexivity|].
    split; [apply existsb_same_key_false; exact Hex|].
    split; apply or_str_nonempty; [discriminate|].
    apply or_str_nonempty, placeholder_nonempty.
  - split; reflexivity.
Qed.



(** ** The search result loop *)

Lemma parse_doc_row (d : json) (x : ol_row) :
  parse_doc d = Some (Some x) ->
  exists kv t0, d = JObj kv /\
    Json.or_empty_str (Json.get kv "title") = Some t0 /\ r_title x = Py.strip t0 /\
    r_title x <> "" /\ r_author x <> "" /\
    Matcher.extract kv = mkMeta (r_cover x) (r_cover_i x) (r_isbn x) (r_olid x) (r_year x).
Proof.
  destruct d as [| | | | |kv]; try discriminate. unfold parse_doc.
  destruct (Json.or_empty_str (Json.get kv "title")) as [t0|] eqn:Ht; [|discriminate].
  set (ao := match Json.get kv "author_name" with
             | JArr (a0 :: _) => option_map Py.strip (Json.or_empty_str a0)
             | _ => Some "" end).
  destruct ao as [au|]; [|discriminate].
  destruct (negb (Py.is_empty (Py.strip t0)) && negb (Py.is_empty au))%bool eqn:Hne;
    [|discriminate].
  intros H. injection H as <-. exists kv, t0. cbn.
  apply andb_prop in Hne as [H1 H2]. apply negb_true_iff in H1, H2.
  unfold Py.is_empty in H1, H2.
  split; [reflexivity|]. split; [exact Ht|]. split; [reflexivity|].
  split; [intros E; rewrite E in H1; discriminate|].
  split; [intros E; rewrite E in H2; discriminate|].
  reflexivity.
Qed.

(** Every row of the search loop comes from one document of the list:
    its title is that document's stripped title, title and author are
    non-empty, and its cover, cover id, ISBN, edition id and year are
    exactly the fields [_ol_best_match] extracts from the same document.
    There are never more rows than documents. *)
Theorem parse_list_rows (l : list json) (rows : list ol_row) :
  parse_list l = Ret rows ->
  (length rows <= length l)%nat /\
  forall x, In x rows ->
    exists kv t0, In (JObj kv) l /\
      Json.or_empty_str (Json.get kv "title") = Some t0 /\ r_title x = Py.strip t0 /\
      r_title x <> "" /\ r_author x <> "" /\
      Matcher.extract kv = mkMeta (r_cover x) (r_cover_i x) (r_isbn x) (r_olid x) (r_year x).
Proof.
  revert rows. induction l as [|d l IH]; intros rows H.
  - cbn in H. injection H as <-. split; [cbn; lia|]. intros x [].
  - cbn in H. destruct (parse_doc d) as [o|] eqn:Hd; [|discriminate].
    destruct (parse_list l) as [rows'|]; [|discriminate].
    injection H as <-. destruct (IH rows' eq_refl) as [Hlen Hin].
    destruct o as [y|].
    + split; [cbn; lia|]. intros x [Hyx|Hx]; [subst y|].
      * destruct (parse_doc_row d x Hd) as (kv & t0 & -> & Hrest).
        exists kv, t0. split; [left; reflexivity|exact Hrest].
      * destruct (Hin x Hx) as (kv & t0 & Hl & Hrest).
        exists kv, t0. split; [right; exact Hl|exact Hrest].
    + split; [cbn; lia|]. intros x Hx.
      destruct (Hin x Hx) as (kv & t0 & Hl & Hrest).
      exists kv, t0. split; [right; exact Hl|exact Hrest].
Qed.

Lemma parse_list_rows_witness :
  parse_list [JObj [("title", JStr " Dune "); ("author_name", JArr [JStr "Frank Herbert"]);
                    ("cover_i", JInt 42)]; JObj [("title", JStr "x")]] =
    Ret [mkRow "Dune" "Frank Herbert" "" "https://covers.openlibrary.org/b/id/42-L.jpg"
           "42" "" ""] /\
  (length [mkRow "Dune" "Frank Herbert" "" "https://covers.openlibrary.org/b/id/42-L.jpg"
             "42" "" ""] <= 2)%nat.
Proof.
  assert (H : parse_list [JObj [("title", JStr " Dune "); ("author_name", JArr [JStr "Frank Herbert"]);
                    ("cover_i", JInt 42)]; JObj [("title", JStr "x")]] =
    Ret [mkRow "Dune" "Frank Herbert" "" "https://covers.openlibrary.org/b/id/42-L.jpg"
           "42" "" ""]) by (vm_compute; reflexivity).
  split; [exact H|]. exact (proj1 (parse_list_rows _ _ H)).
Defined.



(** ** [_ol_description_for] *)

Lemma str_app_assoc (a b c : string) : (a ++ b) ++ c = a ++ (b ++ c).
Proof. induction a as [|x a IH]; cbn; [reflexivity|rewrite IH; reflexivity]. Qed.

Lemma str_app_nil (a : string) : a ++ "" = a.
Proof. induction a as [|x a IH]; cbn; [reflexivity|rewrite IH; reflexivity]. Qed.

Lemma str_length_app (a b : string) :
  String.length (a ++ b) = (String.length a + String.length b)%nat.
Proof. induction a as [|x a IH]; cbn; [reflexivity|rewrite IH; reflexivity]. Qed.

Lemma prefix_app (p r : string) : String.prefix p (p ++ r) = true.
Proof.
  induction p as [|c p IH]; cbn.
  - destruct r; reflexivity.
  - destruct (Ascii.ascii_dec c c) as [_|n]; [exact IH|contradiction n; reflexivity].
Qed.

Lemma substring_prefix (n : nat) (s : string) :
  exists r, s = substring 0 n s ++ r.
Proof.
  revert s. induction n as [|n IH]; intros s.
  - exists s. destruct s; reflexivity.
  - destruct s as [|c s]; [exists ""; reflexivity|].
    destruct (IH s) as [r Hr]. exists r. cbn. rewrite <- Hr. reflexivity.
Qed.

Lemma substring_length (n : nat) (s : string) :
  (String.length (substring 0 n s) <= n)%nat.
Proof.
  revert s. induction n as [|n IH]; intros s.
  - destruct s; cbn; lia.
  - destruct s as [|c s]; cbn; [lia|]. specialize (IH s). lia.
Qed.

Lemma rsplit_head_prefix (s : string) : exists r, s = rsplit_head s ++ r.
Proof.
  induction s as [|c s IH]; cbn.
  - exists ""; reflexivity.
  - destruct (Py.contains " " s).
    + destruct IH as [r Hr]. exists r. cbn. rewrite <- Hr. reflexivity.
    + destruct (Ascii.eqb c " "%char).
      * exists (String c s). reflexivity.
      * exists "". rewrite str_app_nil. reflexivity.
Qed.

Lemma lstrip_suffix (s : string) : exists p, s = p ++ Py.lstrip s.
Proof.
  induction s as [|c s IH]; cbn.
  - exists ""; reflexivity.
  - destruct (Py.is_space c).
    + destruct IH as [p Hp]. exists (String c p). cbn. rewrite <- Hp. reflexivity.
    + exists "". reflexivity.
Qed.

Lemma list_ascii_of_string_app (a b : string) :
  list_ascii_of_string (a ++ b) = (list_ascii_of_string a ++ list_ascii_of_string b)%list.
Proof. induction a as [|c a IH]; cbn; [reflexivity|rewrite IH; reflexivity]. Qed.

Lemma string_of_list_ascii_app (a b : list ascii) :
  string_of_list_ascii (a ++ b) = string_of_list_ascii a ++ string_of_list_ascii b.
Proof. induction a as [|c a IH]; cbn; [reflexivity|rewrite IH; reflexivity]. Qed.

Lemma rstrip_prefix (s : string) : exists r, s = Py.rstrip s ++ r.
Proof.
  unfold Py.rstrip.
  set (sr := string_of_list_ascii (rev (list_ascii_of_string s))).
  destruct (lstrip_suffix sr) as [p Hp].
  exists (string_of_list_ascii (rev (list_ascii_of_string p))).
  rewrite <- string_of_list_ascii_app, <- rev_app_distr, <- list_ascii_of_string_app,
    <- Hp. unfold sr. rewrite list_ascii_of_string_of_list_ascii, rev_involutive,
    string_of_list_ascii_of_string. reflexivity.
Qed.

(** The tidying of a description: the stripped text is kept when it has at
    most 600 characters; a longer one is cut to a prefix of at most 600
    characters, ending before the last space of its first 600 and without
    trailing whitespace, followed by "…". *)
Theorem tidy_shape (s : string) :
  (String.length (Py.strip s) <= 600 /\ tidy s = Py.strip s)%nat \/
  ((600 < String.length (Py.strip s))%nat /\
   exists p, tidy s = p ++ ellipsis /\ String.prefix p (Py.strip s) = true /\
             (String.length p <= 600)%nat).
Proof.
  unfold tidy. set (d := Py.strip s).
  destruct (600 <? String.length d)%nat eqn:E.
  - right. apply Nat.ltb_lt in E. split; [exact E|].
    exists (Py.rstrip (rsplit_head (substring 0 600 d))). split; [reflexivity|].
    destruct (rstrip_prefix (rsplit_head (substring 0 600 d))) as [r1 H1].
    destruct (rsplit_head_prefix (substring 0 600 d)) as [r2 H2].
    destruct (substring_prefix 600 d) as [r3 H3].
    pose proof (substring_length 600 d) as L.
    set (sub := substring 0 600 d) in *. set (h := rsplit_head sub) in *.
    set (p := Py.rstrip h) in *. clearbody p h sub.
    split.
    + rewrite H3, H2, H1, !str_app_assoc. apply prefix_app.
    + rewrite H2, H1, !str_length_app in L. lia.
  - left. apply Nat.ltb_ge in E. split; [exact E|reflexivity].
Qed.

(** [_ol_description_for] makes no request for a blank title and at most
    two requests (the search, then the work page) otherwise; whatever it
    returns without raising is the empty string or a tidied description. *)
Theorem description_for_outcome (net : endpoint) (title author : string) :
  let '(urls, r) := _ol_description_for net title author in
  (Py.is_empty (Py.strip title) = true -> urls = [] /\ r = Ret "") /\
  (length urls <= 2)%nat /\
  (forall d, r = Ret d -> d = "" \/ exists s, d = tidy s).
Proof.
  unfold _ol_description_for. cbv zeta.
  destruct (Py.is_empty (Py.strip title)) eqn:Ht.
  { split; [intros _; split; reflexivity|]. split; [cbn; lia|].
    intros d Hd. injection Hd as <-. left. reflexivity. }
  repeat match goal with
         | |- context [net ?u] => destruct (net u) as [[]|]
         | |- context [Json.truthy ?v] => destruct (Json.truthy v)
         | |- context [match Json.get ?kv ?k with _ => _ end] => destruct (Json.get kv k)
         | |- context [Matcher.py_max ?f ?l] => destruct (Matcher.py_max f l) as [[]|]
         | |- context [Py.is_empty ?x] => destruct (Py.is_empty x)
         | |- context [String.prefix ?a ?b] => destruct (String.prefix a b)
         end;
    (split; [intros Hf; discriminate Hf|]); (split; [cbn; lia|]); intros d0 Hd;
    first [discriminate
          | injection Hd as <-; first [left; reflexivity | right; eexists; reflexivity]].
Qed.

Lemma description_for_outcome_witness :
  _ol_description_for no_net "  " "Homer" = ([], Ret "").
Proof.
  pose proof (description_for_outcome no_net "  " "Homer") as H.
  destruct (_ol_description_for no_net "  " "Homer") as [urls r].
  destruct H as [H _]. destruct (H eq_refl) as [-> ->]. reflexivity.
Defined.

(** ** The demo cover cache of [all_books_ui] *)

Lemma key_eqb_refl (k : string * string) : key_eqb k k = true.
Proof. destruct k. unfold key_eqb. cbn. rewrite !String.eqb_refl. reflexivity. Qed.

Lemma cache_get_app_some (c x : cover_cache) (k : string * string) (e : cache_entry) :
  cache_get c k = Some e -> cache_get (c ++ x)%list k = Some e.
Proof.
  induction c as [|[k' e'] c IH]; cbn; [discriminate|].
  destruct (key_eqb k' k); [auto|exact IH].
Qed.

Lemma cache_get_app_none (c x : cover_cache) (k : string * string) :
  cache_get c k = None -> cache_get (c ++ x)%list k = cache_get x k.
Proof.
  induction c as [|[k' e'] c IH]; cbn; [reflexivity|].
  destruct (key_eqb k' k); [discriminate|exact IH].
Qed.

Lemma demo_loop_mono (net : endpoint) (bs : list dict) : forall c urls r c',
  demo_loop net bs c = (urls, r, c') ->
  forall k e, cache_get c k = Some e -> cache_get c' k = Some e.
Proof.
  induction bs as [|b rest IH]; intros c urls r c' H k e Hk.
  { cbn in H. injection H as _ _ <-. exact Hk. }
  cbn [demo_loop] in H.
  set (key := (dget_default b "title" "", dget_default b "author" "")) in *.
  destruct (cache_get c key) as [e0|] eqn:Hc.
  - destruct (demo_loop net rest c) as [[u2 r2] c2] eqn:Hr.
    injection H as _ _ <-. exact (IH _ _ _ _ Hr k e Hk).
  - destruct (Matcher._ol_best_match net (dget_default b "title" "")
                 (dget_default b "author" "")) as [u0 [m|]].
    + match type of H with context [demo_loop net rest ?c1] =>
        destruct (demo_loop net rest c1) as [[u2 r2] c2] eqn:Hr end.
      injection H as _ _ <-. apply (IH _ _ _ _ Hr k e).
      apply cache_get_app_some, Hk.
    + injection H as _ _ <-. exact Hk.
Qed.

(** Once a pass over the demo books has gone through, the cache answers
    for every one of them: a second pass, whatever the network does, makes
    no request, returns the same rows and leaves the cache as it is. *)
Theorem demo_loop_cached (net net' : endpoint) (bs : list dict) :
  forall c urls rows c',
  demo_loop net bs c = (urls, Ret rows, c') ->
  demo_loop net' bs c' = ([], Ret rows, c').
Proof.
  induction bs as [|b rest IH]; intros c urls rows c' H.
  { cbn in H. injection H as _ <- <-. reflexivity. }
  cbn [demo_loop] in H |- *.
  set (key := (dget_default b "title" "", dget_default b "author" "")) in *.
  destruct (cache_get c key) as [e0|] eqn:Hc.
  - destruct (demo_loop net rest c) as [[u2 r2] c2] eqn:Hr.
    destruct r2 as [rows'|]; [|discriminate].
    injection H as _ <- <-.
    pose proof (demo_loop_mono net rest c u2 _ c2 Hr key e0 Hc) as Hm.
    match goal with |- context [cache_get c2 ?k] =>
      replace (cache_get c2 k) with (Some e0) by (symmetry; exact Hm) end.
    rewrite (IH c u2 rows' c2 Hr). cbn [app].
    try match goal with |- context [cache_get c2 ?k] =>
      replace (cache_get c2 k) with (Some e0) by (symmetry; exact Hm) end.
    match goal with |- context [cache_get c ?k] =>
      replace (cache_get c k) with (Some e0) by (symmetry; exact Hc) end.
    reflexivity.
  - destruct (Matcher._ol_best_match net (dget_default b "title" "")
                 (dget_default b "author" "")) as [u0 [m|]].
    + match type of H with context [demo_loop net rest (c ++ [(key, ?E)])%list] =>
        set (e := E) in H end.
      assert (He : cache_get (c ++ [(key, e)])%list key = Some e).
      { rewrite (cache_get_app_none _ _ _ Hc). cbn. rewrite key_eqb_refl. reflexivity. }
      rewrite He in H.
      destruct (demo_loop net rest (c ++ [(key, e)])%list) as [[u2 r2] c2] eqn:Hr.
      destruct r2 as [rows'|]; [|discriminate].
      injection H as _ <- <-.
      pose proof (demo_loop_mono net rest _ u2 _ c2 Hr key e He) as Hm.
      match goal with |- context [cache_get c2 ?k] =>
        replace (cache_get c2 k) with (Some e) by (symmetry; exact Hm) end.
      rewrite (IH _ u2 rows' c2 Hr). cbn [app].
      try match goal with |- context [cache_get c2 ?k] =>
        replace (cache_get c2 k) with (Some e) by (symmetry; exact Hm) end.
      reflexivity.
    + discriminate.
Qed.

Lemma demo_loop_cached_witness :
  demo_loop no_net [[("title", "Dune"); ("author", "Frank Herbert"); ("cover", "c.jpg")]] [] =
    (["https://openlibrary.org/search.json?q=Dune%20Frank%20Herbert&limit=20&page=1"],
     Ret [mkUi "Dune" "Frank Herbert" "Other" "" "c.jpg"],
     [(("Dune", "Frank Herbert"), CCover "c.jpg")]) /\
  demo_loop no_net [[("title", "Dune"); ("author", "Frank Herbert"); ("cover", "c.jpg")]]
    [(("Dune", "Frank Herbert"), CCover "c.jpg")] =
    ([], Ret [mkUi "Dune" "Frank Herbert" "Other" "" "c.jpg"],
     [(("Dune", "Frank Herbert"), CCover "c.jpg")]).
Proof.
  assert (H : demo_loop no_net [[("title", "Dune"); ("author", "Frank Herbert"); ("cover", "c.jpg")]] [] =
    (["https://openlibrary.org/search.json?q=Dune%20Frank%20Herbert&limit=20&page=1"],
     Ret [mkUi "Dune" "Frank Herbert" "Other" "" "c.jpg"],
     [(("Dune", "Frank Herbert"), CCover "c.jpg")])) by (vm_compute; reflexivity).
  split; [exact H|]. exact (demo_loop_cached no_net no_net _ _ _ _ _ H).
Defined.

(** ** Covers of the rows [add_book] writes *)

Lemma best_match_cover_built (net : endpoint) (t a : string) (urls : list string) (m : meta) :
  Matcher._ol_best_match net t a = (urls, Ret (Some m)) ->
  m_cover m = _ol_cover_url (m_cover_i m) (m_isbn m) (m_olid m).
Proof.
  unfold Matcher._ol_best_match. destruct (Py.is_empty (Py.strip t)); [discriminate|].
  destruct (net _) as [[| | | | |data]|]; try discriminate.
  destruct (negb (Json.truthy (Json.get data "docs"))); [discriminate|].
  destruct (Json.get data "docs"); try discriminate.
  destruct (Matcher.py_max _ _) as [[| | | | |best]|]; try discriminate.
  intros H. injection H as _ <-. reflexivity.
Qed.

Lemma or_str_nonempty_id (s d : string) : s <> "" -> or_str s d = s.
Proof.
  unfold or_str, Py.is_empty. destruct (String.eqb s "") eqn:E; [|reflexivity].
  apply String.eqb_eq in E. contradiction.
Qed.

Lemma or_str_fallback (x y : string) :
  y <> "" -> or_str x (or_str (or_str x y) PLACEHOLDER_COVER) = or_str x y.
Proof.
  intros Hy. unfold or_str. destruct (Py.is_empty x) eqn:Ex; [|reflexivity].
  destruct (Py.is_empty y) eqn:Ey; [|reflexivity].
  unfold Py.is_empty in Ey. apply String.eqb_eq in Ey. contradiction.
Qed.

Lemma cover_url_empty : _ol_cover_url "" "" "" = "".
Proof. reflexivity. Qed.

Lemma add_book_row_cover (m : option meta) (t a g y cover : string) :
  (forall x, m = Some x -> m_cover x = _ol_cover_url (m_cover_i x) (m_isbn x) (m_olid x)) ->
  let b := mkBook t a g y (or_str (meta_get m m_cover) (or_str cover PLACEHOLDER_COVER))
             (meta_get m m_olid) (meta_get m m_cover_i) (meta_get m m_isbn) in
  db_cover b = b_cover b.
Proof.
  intros Hm. cbv zeta. unfold db_cover. cbn [b_cover_i b_isbn b_olid b_cover].
  assert (Hy : or_str cover PLACEHOLDER_COVER <> "")
    by (apply or_str_nonempty, placeholder_nonempty).
  destruct m as [x|]; cbn [meta_get].
  - rewrite <- (Hm x eq_refl). apply or_str_fallback. exact Hy.
  - rewrite cover_url_empty. apply or_str_fallback. exact Hy.
Qed.

(** A book added through [add_book] is shown by [all_books_ui] with the
    cover it was stored with: the cover rebuilt from its stored cover id,
    ISBN and edition id is the cover that was chosen when it was added,
    or empty, in which case the stored cover is used. *)
Theorem add_book_cover_shown (net : endpoint) (form : dict) (w w' : world) (msg : string * string) :
  add_book_post net form w = (Ret msg, w') ->
  forall b, In b (visible w') -> In b (visible w) \/ db_cover b = b_cover b.
Proof.
  unfold add_book_post.
  set (t := Py.strip (get_or form "title" "")).
  set (a := Py.strip (get_or form "author" "")).
  destruct (Py.is_empty t || Py.is_empty a)%bool.
  { intros H. injection H as _ <-. intros b Hb. left. exact Hb. }
  unfold bind, find, ret.
  destruct (existsb (same_key t a) (visible w)).
  { intros H. injection H as _ <-. intros b Hb. left. exact Hb. }
  unfold best_match.
  destruct (Matcher._ol_best_match net t a) as [urls [m|]] eqn:Hbm; [|discriminate].
  intros H. injection H as _ <-. intros b Hb.
  unfold visible in Hb |- *. cbn in Hb. rewrite ?app_nil_r in Hb.
  rewrite app_assoc in Hb. apply in_app_or in Hb as [Hb|[<-|[]]]; [left; assumption|].
  right. apply add_book_row_cover.
  intros x ->. exact (best_match_cover_built net t a urls x Hbm).
Qed.

Lemma add_book_cover_shown_witness :
  exists w', add_book_post (fun _ => Some (JObj [("docs", JArr [doc_1984])]))
               [("title", "Nineteen Eighty-Four"); ("author", "George Orwell")]
               (mkWorld [] [] []) = (Ret ("Book added!", "add_review"), w') /\
    forall b, In b (visible w') -> In b (visible (mkWorld [] [] [])) \/ db_cover b = b_cover b.
Proof.
  eexists. split; [vm_compute; reflexivity|].
  apply (add_book_cover_shown (fun _ => Some (JObj [("docs", JArr [doc_1984])]))
           [("title", "Nineteen Eighty-Four"); ("author", "George Orwell")]
           (mkWorld [] [] []) _ ("Book added!", "add_review")).
  vm_compute. reflexivity.
Defined.

(** ** [api_following_toggle] and [api_followers_remove] *)

(** [l'] is [l] without its first entry with handle [h]. *)
Definition removed_first (h : string) (l l' : list person) : Prop :=
  exists pre p post, l = (pre ++ p :: post)%list /\ l' = (pre ++ post)%list /\
    p_handle p = h /\ Forall (fun q => p_handle q <> h) pre.

Lemma pop_handle_some (h : string) (l l' : list person) :
  pop_handle h l = Some l' -> removed_first h l l'.
Proof.
  revert l'. induction l as [|p r IH]; intros l' H; cbn in H; [discriminate|].
  destruct (String.eqb (p_handle p) h) eqn:E.
  - injection H as <-. apply String.eqb_eq in E.
    exists [], p, r. repeat split; auto.
  - destruct (pop_handle h r) as [r'|] eqn:Hr; [|discriminate].
    injection H as <-. destruct (IH r' eq_refl) as (pre & q & post & -> & -> & Hq & Hpre).
    exists (p :: pre), q, post. repeat split; auto.
    constructor; [|exact Hpre]. intros Eh. apply String.eqb_neq in E. contradiction.
Qed.

Lemma pop_handle_none (h : string) (l : list person) :
  pop_handle h l = None -> Forall (fun q => p_handle q <> h) l.
Proof.
  induction l as [|p r IH]; cbn; intros H; [constructor|].
  destruct (String.eqb (p_handle p) h) eqn:E; [discriminate|].
  destruct (pop_handle h r); [discriminate|].
  constructor; [apply String.eqb_neq, E|exact (IH eq_refl)].
Qed.

Lemma pop_handle_snoc (h : string) (l : list person) (x : person) :
  pop_handle h l = None -> p_handle x = h -> pop_handle h (l ++ [x])%list = Some l.
Proof.
  intros Hn Hx. induction l as [|p r IH]; cbn in *.
  - rewrite Hx, String.eqb_refl. reflexivity.
  - destruct (String.eqb (p_handle p) h); [discriminate|].
    destruct (pop_handle h r); [discriminate|]. rewrite (IH eq_refl). reflexivity.
Qed.

Lemma is_empty_true (s : string) : Py.is_empty s = true -> s = "".
Proof. unfold Py.is_empty. apply String.eqb_eq. Qed.

(** Following a handle and toggling it again restores [FOLLOWING] exactly:
    the first toggle appends the new entry at the end, the second removes
    that entry, the first one with the handle. *)
Theorem following_toggle_twice (body : json) (l l' : list person) :
  api_following_toggle body l = Ret (RFollowed, l') ->
  api_following_toggle body l' = Ret (RUnfollowed, l).
Proof.
  unfold api_following_toggle. destruct (handle_of body) as [h|]; [|discriminate].
  destruct (Py.is_empty h); [discriminate|].
  destruct (pop_handle h l) eqn:Hp; [discriminate|].
  intros H. injection H as <-. rewrite (pop_handle_snoc h l (mkPerson (name_guess h) h) Hp eq_refl). reflexivity.
Qed.

Lemma following_toggle_twice_witness :
  api_following_toggle (JObj [("handle", JStr " @new_reader ")])
    [mkPerson "John Smith" "@johnsmith34"] =
    Ret (RFollowed, [mkPerson "John Smith" "@johnsmith34"; mkPerson "New Reader" "@new_reader"]) /\
  api_following_toggle (JObj [("handle", JStr " @new_reader ")])
    [mkPerson "John Smith" "@johnsmith34"; mkPerson "New Reader" "@new_reader"] =
    Ret (RUnfollowed, [mkPerson "John Smith" "@johnsmith34"]).
Proof.
  assert (H : api_following_toggle (JObj [("handle", JStr " @new_reader ")])
    [mkPerson "John Smith" "@johnsmith34"] =
    Ret (RFollowed, [mkPerson "John Smith" "@johnsmith34"; mkPerson "New Reader" "@new_reader"]))
    by (vm_compute; reflexivity).
  split; [exact H|]. exact (following_toggle_twice _ _ _ H).
Defined.


(** The outcomes of [api_followers_remove]: a blank handle and an unknown
    handle leave [FOLLOWERS] unchanged; otherwise exactly the first entry
    with the handle is removed and the others keep their order. *)
Theorem followers_remove_spec (body : json) (l : list person) :
  match api_followers_remove body l with
  | Raise => handle_of body = None
  | Ret (RMissing, l') => handle_of body = Some "" /\ l' = l
  | Ret (RNotFound, l') =>
      exists h, handle_of body = Some h /\ h <> "" /\ Forall (fun q => p_handle q <> h) l /\ l' = l
  | Ret (ROk, l') => exists h, handle_of body = Some h /\ h <> "" /\ removed_first h l l'
  | Ret (_, _) => False
  end.
Proof.
  unfold api_followers_remove. destruct (handle_of body) as [h|]; [|reflexivity].
  destruct (Py.is_empty h) eqn:He.
  { apply is_empty_true in He. subst h. split; reflexivity. }
  assert (Hh : h <> "") by (intros ->; discriminate He).
  destruct (pop_handle h l) as [r|] eqn:Hp.
  - exists h. split; [reflexivity|]. split; [exact Hh|]. apply pop_handle_some, Hp.
  - exists h. split; [reflexivity|]. split; [exact Hh|].
    split; [apply pop_handle_none, Hp|reflexivity].
Qed.

(** ** [str.strip] is idempotent *)

Fixpoint lstripL (l : list ascii) : list ascii :=
  match l with
  | [] => []
  | c :: r => if Py.is_space c then lstripL r else l
  end.

Definition rstripL (l : list ascii) : list ascii := rev (lstripL (rev l)).

Lemma lstrip_list (s : string) :
  list_ascii_of_string (Py.lstrip s) = lstripL (list_ascii_of_string s).
Proof.
  induction s as [|c s IH]; cbn; [reflexivity|].
  destruct (Py.is_space c); [exact IH|reflexivity].
Qed.

Lemma strip_list (s : string) :
  Py.strip s = string_of_list_ascii (rstripL (lstripL (list_ascii_of_string s))).
Proof.
  unfold Py.strip, Py.rstrip, rstripL.
  rewrite lstrip_list, list_ascii_of_string_of_list_ascii, lstrip_list. reflexivity.
Qed.

Lemma lstripL_idem (l : list ascii) : lstripL (lstripL l) = lstripL l.
Proof.
  induction l as [|c r IH]; cbn; [reflexivity|].
  destruct (Py.is_space c) eqn:E; [exact IH|cbn; rewrite E; reflexivity].
Qed.

Lemma lstripL_app (l1 l2 : list ascii) :
  lstripL (l1 ++ l2) = if forallb Py.is_space l1 then lstripL l2 else (lstripL l1 ++ l2)%list.
Proof.
  induction l1 as [|c r IH]; cbn; [reflexivity|].
  destruct (Py.is_space c); cbn; [exact IH|reflexivity].
Qed.

Lemma rstripL_idem (l : list ascii) : rstripL (rstripL l) = rstripL l.
Proof. unfold rstripL. rewrite rev_involutive, lstripL_idem. reflexivity. Qed.

Lemma lstripL_rstripL (m : list ascii) :
  lstripL m = m -> lstripL (rstripL m) = rstripL m.
Proof.
  destruct m as [|c r]; [reflexivity|]. cbn. intros Hm.
  destruct (Py.is_space c) eqn:E.
  - (* then [lstripL r = c :: r], impossible by length *)
    exfalso. assert (Hlen : forall l, (length (lstripL l) <= length l)%nat).
    { induction l as [|d l IH]; cbn; [lia|]. destruct (Py.is_space d); cbn; lia. }
    specialize (Hlen r). rewrite Hm in Hlen. cbn in Hlen. lia.
  - unfold rstripL. cbn [rev]. rewrite lstripL_app. cbn [lstripL]. rewrite E.
    destruct (forallb Py.is_space (rev r)).
    + cbn. rewrite E. reflexivity.
    + rewrite rev_app_distr. cbn. rewrite E. reflexivity.
Qed.

Lemma strip_idem (s : string) : Py.strip (Py.strip s) = Py.strip s.
Proof.
  rewrite (strip_list (Py.strip s)), (strip_list s), list_ascii_of_string_of_list_ascii.
  rewrite lstripL_rstripL by apply lstripL_idem.
  rewrite rstripL_idem. reflexivity.
Qed.

Lemma cover_url_strip_args (a b c : string) :
  _ol_cover_url (Py.strip a) (Py.strip b) (Py.strip c) = _ol_cover_url a b c.
Proof. unfold _ol_cover_url. rewrite !strip_idem. reflexivity. Qed.

Lemma strip_fixed (s : string) :
  lstripL (list_ascii_of_string s) = list_ascii_of_string s ->
  lstripL (rev (list_ascii_of_string s)) = rev (list_ascii_of_string s) ->
  Py.strip s = s.
Proof.
  intros H1 H2. rewrite strip_list, H1. unfold rstripL. rewrite H2, rev_involutive.
  apply string_of_list_ascii_of_string.
Qed.

Lemma strip_url (p : string) :
  Py.strip (String "h" (p ++ "-L.jpg")) = String "h" (p ++ "-L.jpg").
Proof.
  apply strip_fixed; [reflexivity|].
  cbn [list_ascii_of_string rev]. rewrite list_ascii_of_string_app, rev_app_distr.
  reflexivity.
Qed.

Lemma strip_cover_url (a b c : string) :
  Py.strip (_ol_cover_url a b c) = _ol_cover_url a b c.
Proof.
  unfold _ol_cover_url.
  destruct (negb (Py.is_empty (Py.strip a))).
  { exact (strip_url ("ttps://covers.openlibrary.org/b/id/" ++ Py.strip a)). }
  destruct (negb (Py.is_empty (Py.strip b))).
  { exact (strip_url ("ttps://covers.openlibrary.org/b/isbn/" ++ Py.strip b)). }
  destruct (negb (Py.is_empty (Py.strip c))).
  { exact (strip_url ("ttps://covers.openlibrary.org/b/olid/" ++ Py.strip c)). }
  reflexivity.
Qed.

(** ** Covers of the rows the seeder writes *)

Lemma seed_row_cover (m : option meta) (t a g : string) :
  (forall x, m = Some x -> m_cover x = _ol_cover_url (m_cover_i x) (m_isbn x) (m_olid x)) ->
  let c := Py.strip (meta_get m m_cover) in
  let cover := if Py.is_empty c then PLACEHOLDER_COVER else c in
  db_cover (mkBook t a g (Py.strip (meta_get m m_year)) cover
              (Py.strip (meta_get m m_olid)) (Py.strip (meta_get m m_cover_i))
              (Py.strip (meta_get m m_isbn))) = cover.
Proof.
  intros Hm. cbv zeta. destruct m as [x|].
  - cbn [meta_get]. unfold db_cover. cbn [b_cover_i b_isbn b_olid b_cover].
    rewrite cover_url_strip_args, (Hm x eq_refl), strip_cover_url.
    set (u := _ol_cover_url (m_cover_i x) (m_isbn x) (m_olid x)).
    unfold or_str. destruct (Py.is_empty u) eqn:E.
    + destruct (Py.is_empty PLACEHOLDER_COVER); reflexivity.
    + reflexivity.
  - vm_compute. reflexivity.
Qed.

Definition shows_stored_cover (w w' : world) : Prop :=
  forall b, In b (visible w') -> In b (visible w) \/ db_cover b = b_cover b.

Lemma shows_refl (w : world) : shows_stored_cover w w.
Proof. intros b Hb. left. exact Hb. Qed.

Lemma shows_trans (w1 w2 w3 : world) :
  shows_stored_cover w1 w2 -> shows_stored_cover w2 w3 -> shows_stored_cover w1 w3.
Proof.
  intros H12 H23 b Hb. destruct (H23 b Hb) as [H|H]; [|right; exact H].
  exact (H12 b H).
Qed.

Lemma seed_item_shows (net : endpoint) (it : item) (w w' : world) (r : result unit) :
  seed_item net it w = (r, w') -> shows_stored_cover w w'.
Proof.
  destruct it as [[t a] g]. unfold seed_item.
  destruct (Py.is_empty (Py.strip t) || Py.is_empty (Py.strip a))%bool.
  { intros H. injection H as _ <-. apply shows_refl. }
  unfold bind, find, ret.
  destruct (existsb (same_key (Py.strip t) (Py.strip a)) (visible w)).
  { intros H. injection H as _ <-. apply shows_refl. }
  unfold best_match.
  destruct (Matcher._ol_best_match net (Py.strip t) (Py.strip a)) as [urls [m|]] eqn:Hbm.
  - unfold add. intros H. injection H as _ <-. intros b Hb.
    unfold visible in Hb |- *. cbn in Hb. rewrite app_assoc in Hb.
    apply in_app_or in Hb as [Hb|[<-|[]]]; [left; exact Hb|].
    right. apply seed_row_cover. intros x ->.
    exact (best_match_cover_built net _ _ urls x Hbm).
  - intros H. injection H as _ <-. intros b Hb. left. exact Hb.
Qed.

Lemma seed_items_shows (net : endpoint) (l : list item) : forall w w' r,
  seed_items net l w = (r, w') -> shows_stored_cover w w'.
Proof.
  induction l as [|it l IH]; cbn; intros w w' r H.
  - injection H as _ <-. apply shows_refl.
  - unfold bind in H. destruct (seed_item net it w) as [[]w1] eqn:E.
    + eapply shows_trans; [eapply seed_item_shows, E|eapply IH, H].
    + injection H as _ <-. eapply seed_item_shows, E.
Qed.

(** Every book [_ensure_seeded_curated] writes is shown by [all_books_ui]
    with the cover it was stored with: the URL rebuilt from its stored
    cover id, ISBN and edition id is its stored cover, or empty when the
    placeholder was stored. *)
Theorem seeded_cover_shown (net : endpoint) (ss : shelves) (min_books : Z)
    (w w' : world) (r : result unit) :
  _ensure_seeded_curated net ss min_books w = (r, w') ->
  forall b, In b (visible w') -> In b (visible w) \/ db_cover b = b_cover b.
Proof.
  unfold _ensure_seeded_curated, bind, count, ret.
  destruct (min_books <=? _).
  { intros H. injection H as _ <-. apply shows_refl. }
  rewrite seed_shelves_concat.
  destruct (seed_items net (concat (map snd ss)) w) as [[]w1] eqn:E.
  - unfold commit. intros H. injection H as _ <-.
    intros b Hb. apply (seed_items_shows net _ w w1 _ E b).
    unfold visible in *. cbn in Hb. rewrite app_nil_r in Hb. exact Hb.
  - intros H. injection H as _ <-. eapply seed_items_shows, E.
Qed.

Lemma seeded_cover_shown_witness :
  exists w', _ensure_seeded_curated (fun _ => Some (JObj [("docs", JArr [doc_1984])]))
               [("Classics", [("Nineteen Eighty-Four", "George Orwell", "Classics")])] 250
               (mkWorld [] [] []) = (Ret tt, w') /\
    forall b, In b (visible w') -> In b (visible (mkWorld [] [] [])) \/ db_cover b = b_cover b.
Proof.
  eexists. split; [vm_compute; reflexivity|].
  apply (seeded_cover_shown (fun _ => Some (JObj [("docs", JArr [doc_1984])]))
           [("Classics", [("Nineteen Eighty-Four", "George Orwell", "Classics")])] 250
           (mkWorld [] [] []) _ (Ret tt)).
  vm_compute. reflexivity.
Defined.

(** ** Handles *)

Lemma prefix_at_cons (s : string) : String.prefix "@" ("@" ++ s) = true.
Proof. cbn. destruct s; reflexivity. Qed.




(** A POST to [edit_profile] keeps the name and the handle when their
    fields are blank; a non-blank handle is normalised exactly as [signup]
    normalises it, so it starts with "@"; the bio becomes a prefix of the
    stripped bio field. *)
Theorem edit_profile_text_spec (form : dict) (u : profile) :
  let u' := edit_profile_text form u in
  let n := Py.strip (get_or form "name" "") in
  let h := Py.strip (get_or form "handle" "") in
  (if Py.is_empty n then pr_name u' = pr_name u else pr_name u' = n) /\
  (if Py.is_empty h then pr_handle u' = pr_handle u
   else pr_handle u' = signup_handle (get_or form "handle" "") /\
        String.prefix "@" (pr_handle u') = true) /\
  String.prefix (pr_bio u') (Py.strip (get_or form "bio" "")) = true.
Proof.
  cbv zeta. unfold edit_profile_text. cbn [pr_name pr_handle pr_bio].
  split; [destruct (Py.is_empty (Py.strip (get_or form "name" ""))); reflexivity|].
  split.
  - unfold signup_handle.
    destruct (Py.is_empty (Py.strip (get_or form "handle" ""))) eqn:He; [reflexivity|].
    cbn [negb]. destruct (String.prefix "@" (Py.strip (get_or form "handle" ""))) eqn:Hp.
    + split; [reflexivity|exact Hp].
    + split; [reflexivity|apply prefix_at_cons].
  - destruct (substring_prefix 200 (Py.strip (get_or form "bio" ""))) as [r Hr].
    rewrite Hr at 2. apply prefix_app.
Qed.

(** ** The QR profile link *)



(** ** Theme and language *)

(** The theme stored is always "light" or "dark", and a field that is one
    of them up to ASCII case is honoured; the language stored is always
    one of [LANGS], and a field naming one of them is stored as it is. *)
Theorem prefs_stored_allowed (form : dict) :
  In (theme_post form) ["light"; "dark"] /\
  (In (Py.lower (get_or form "theme" "light")) ["light"; "dark"] ->
   theme_post form = Py.lower (get_or form "theme" "light")) /\
  In (language_post form) LANGS /\
  (In (get_or form "lang" "English") LANGS -> language_post form = get_or form "lang" "English").
Proof.
  unfold theme_post, language_post.
  set (t := Py.lower (get_or form "theme" "light")).
  set (l := get_or form "lang" "English").
  split; [|split; [|split]].
  - destruct (String.eqb t "light") eqn:E1; cbn [orb].
    + apply String.eqb_eq in E1. rewrite E1. left. reflexivity.
    + destruct (String.eqb t "dark") eqn:E2; [|left; reflexivity].
      apply String.eqb_eq in E2. rewrite E2. right. left. reflexivity.
  - intros [<-|[<-|[]]]; reflexivity.
  - destruct (existsb (String.eqb l) LANGS) eqn:E; [|left; reflexivity].
    apply existsb_exists in E as (x & Hx & Ex). apply String.eqb_eq in Ex. subst x. exact Hx.
  - intros Hin. replace (existsb (String.eqb l) LANGS) with true; [reflexivity|].
    symmetry. apply existsb_exists. exists l. split; [exact Hin|apply String.eqb_refl].
Qed.

(** ** Search suggestions and [browse] *)

(** [/api/search] answers a blank query with no suggestions; otherwise
    with at most 8, each built from a book whose lower-cased title or
    author contains the lower-cased query; when at most 8 books match,
    every one of them is suggested. *)
Theorem api_search_books_spec (q : string) (books : list ui_book) :
  let ql := Py.lower (Py.strip q) in
  let hs := api_search_books q books in
  (Py.is_empty ql = true -> hs = []) /\
  (length hs <= 8)%nat /\
  (forall x, In x hs -> exists b, In b books /\ book_matches ql b = true /\
     x = mkHit (u_title b) (u_author b) (u_cover b) (u_genre b)) /\
  (Py.is_empty ql = false -> (length (filter (book_matches ql) books) <= 8)%nat ->
   forall b, In b books -> book_matches ql b = true ->
   In (mkHit (u_title b) (u_author b) (u_cover b) (u_genre b)) hs).
Proof.
  cbv zeta. unfold api_search_books.
  set (ql := Py.lower (Py.strip q)).
  destruct (Py.is_empty ql) eqn:He.
  { split; [reflexivity|]. split; [cbn; lia|]. split; [intros x []|discriminate]. }
  split; [discriminate|].
  set (f := fun b => mkHit (u_title b) (u_author b) (u_cover b) (u_genre b)).
  split; [rewrite length_firstn; lia|]. split.
  - intros x Hx.
    match type of Hx with In x (firstn 8 ?L) =>
      assert (Hx' : In x (firstn 8 L ++ skipn 8 L)%list) by (apply in_or_app; left; exact Hx)
    end.
    rewrite firstn_skipn in Hx'. clear Hx. rename Hx' into Hx. apply in_map_iff in Hx as (b & <- & Hb).
    apply filter_In in Hb as [Hb Hm]. exists b. split; [exact Hb|]. split; [exact Hm|reflexivity].
  - intros _ Hlen b Hb Hm. rewrite firstn_all2 by (rewrite length_map; exact Hlen).
    apply (in_map f). apply filter_In. split; assumption.
Qed.

